(** * restart-optical-modem: the watchdog of [src/index.ts], embedded in Rocq

    The program polls a URL, keeps a bad-sample counter, and drives a modem's
    web interface through a login-and-restart sequence when the counter
    reaches its ceiling or when a daily timer fires.

    Conventions of the embedding.
    - A JavaScript number that the program only uses as an integer is a [Z];
      a number that may be [NaN] is an [option Z] with [None] for [NaN]; the
      probe delay, which may be [Number.POSITIVE_INFINITY], has its own type.
    - A JavaScript string is a [string] whose characters are code units below
      256.
    - An [async] method is cut at each [await] into the synchronous segments
      that the event loop runs; every segment is a computation in a small
      state-and-output monad over the fields of the object, and what the
      runtime delivers (a settled fetch, a timer that fires) is an event.
    - [Date] follows ECMAScript: local time is taken through the offset
      function [LocalTZA] of the host's time zone, which may change with
      the instant (daylight saving), and every setter ends in [TimeClip].
      Time values are exact integers; the double arithmetic of the code is
      exact as long as the values stay below 2^53, which holds whenever the
      clock and the parsed fields are of ordinary size, as the theorems on
      dates require. *)

From Stdlib Require Import ZArith List String Ascii Bool Lia.
Import ListNotations.
Local Open Scope string_scope.
Local Open Scope list_scope.
Local Open Scope Z_scope.

Set Implicit Arguments.

(** ** JavaScript strings: the few built-ins the program calls *)

Module JsString.

(** [stripPrefix p s] is what is left of [s] after its prefix [p]. *)
Fixpoint stripPrefix (p s : string) : option string :=
  match p, s with
  | EmptyString, _ => Some s
  | String a p', String b s' => if Ascii.eqb a b then stripPrefix p' s' else None
  | String _ _, EmptyString => None
  end.

Definition startsWith (p s : string) : bool :=
  match stripPrefix p s with Some _ => true | None => false end.

(** Line terminators among the code units below 256: LF and CR. The regular
    expression atom [.] matches every other code unit. *)
Definition isLineTerminator (c : ascii) : bool :=
  let n := nat_of_ascii c in (Nat.eqb n 10 || Nat.eqb n 13)%bool.

(** The greedy capture group (any run of non-terminators) followed by the
    literal [suf]: the longest run after which [suf] is found, by
    backtracking. *)
Fixpoint greedyUntil (suf s : string) : option string :=
  match s with
  | EmptyString => if startsWith suf s then Some EmptyString else None
  | String c s' =>
      let stop := if startsWith suf s then Some EmptyString else None in
      if isLineTerminator c then stop
      else match greedyUntil suf s' with
           | Some cap => Some (String c cap)
           | None => stop
           end
  end.

(** No code unit of [s] is a line terminator. *)
Fixpoint noLineTerminator (s : string) : bool :=
  match s with
  | EmptyString => true
  | String c s' => negb (isLineTerminator c) && noLineTerminator s'
  end.

(** [s] is empty or ends in a line terminator: it is made of whole lines. *)
Fixpoint wholeLines (s : string) : bool :=
  match s with
  | EmptyString => true
  | String c EmptyString => isLineTerminator c
  | String _ s' => wholeLines s'
  end.

(** [s] is empty or begins with a line terminator: the line ends here. *)
Definition atLineEnd (s : string) : bool :=
  match s with
  | EmptyString => true
  | String c _ => isLineTerminator c
  end.

Definition matchAt (pre suf s : string) : option string :=
  match stripPrefix pre s with
  | Some rest => greedyUntil suf rest
  | None => None
  end.

(** [s.match(re)] for a regular expression made of the literal [pre], one
    greedy capture group of non-terminators and the literal [suf]: the
    capture group of the leftmost match, [None] when [match] returns [null]. *)
Fixpoint matchCapture (pre suf s : string) : option string :=
  match matchAt pre suf s with
  | Some cap => Some cap
  | None =>
      match s with
      | EmptyString => None
      | String _ s' => matchCapture pre suf s'
      end
  end.

(** [s.split(sep)] for a one-character separator. *)
Fixpoint splitAux (sep : ascii) (s : string) (cur : string) : list string :=
  match s with
  | EmptyString => [cur]
  | String c s' =>
      if Ascii.eqb c sep then cur :: splitAux sep s' EmptyString
      else splitAux sep s' (cur ++ String c EmptyString)%string
  end.

Definition split (sep : ascii) (s : string) : list string :=
  splitAux sep s EmptyString.

Definition isWhiteSpace (c : ascii) : bool :=
  let n := nat_of_ascii c in
  (Nat.eqb n 9 || Nat.eqb n 10 || Nat.eqb n 11 || Nat.eqb n 12
   || Nat.eqb n 13 || Nat.eqb n 32 || Nat.eqb n 160)%bool.

Fixpoint trimStart (s : string) : string :=
  match s with
  | String c s' => if isWhiteSpace c then trimStart s' else s
  | EmptyString => s
  end.

Definition digitValue (c : ascii) : option Z :=
  let n := nat_of_ascii c in
  if (Nat.leb 48 n && Nat.leb n 57)%bool then Some (Z.of_nat n - 48) else None.

(** The decimal digits at the front of [s], accumulated; [None] when there is
    none. *)
Fixpoint leadingDigits (s : string) (acc : option Z) : option Z :=
  match s with
  | String c s' =>
      match digitValue c with
      | Some d =>
          leadingDigits s' (Some (10 * match acc with Some a => a | None => 0 end + d))
      | None => acc
      end
  | EmptyString => acc
  end.

(** [Number.parseInt(s, 10)]; [None] is [NaN]. *)
Definition parseInt (s : string) : option Z :=
  match trimStart s with
  | String "-" s' => option_map Z.opp (leadingDigits s' None)
  | String "+" s' => leadingDigits s' None
  | s' => leadingDigits s' None
  end.

End JsString.

(** ** [Date]: time values and the setters and getters the program calls *)

Module Date.

Definition msPerSecond : Z := 1000.
Definition msPerMinute : Z := 60000.
Definition msPerHour : Z := 3600000.
Definition msPerDay : Z := 86400000.

Definition Day (t : Z) : Z := t / msPerDay.
Definition TimeWithinDay (t : Z) : Z := t mod msPerDay.
Definition HourFromTime (t : Z) : Z := (t / msPerHour) mod 24.
Definition MinFromTime (t : Z) : Z := (t / msPerMinute) mod 60.
Definition SecFromTime (t : Z) : Z := (t / msPerSecond) mod 60.
Definition msFromTime (t : Z) : Z := t mod msPerSecond.

Definition MakeTime (hour min sec ms : Z) : Z :=
  hour * msPerHour + min * msPerMinute + sec * msPerSecond + ms.
Definition MakeDate (day time : Z) : Z := day * msPerDay + time.

(** A [Date] object holds a time value, [None] for an invalid date. *)
Record Date : Type := mkDate { getTime : option Z }.

(** The time zone of the host, as ECMAScript's [LocalTZA(t, isUTC)]: the
    offset of local time from UTC, in milliseconds, at the UTC instant [t]
    when [isUTC] is true, and for the local time [t] when it is false (a
    local time that is repeated or skipped around a transition takes the
    offset from before the transition). *)
Definition Zone : Type := Z -> bool -> Z.

(** A time value beyond 8.64e15 ms is not a time: the date is invalid. *)
Definition maxTimeValue : Z := 8640000000000000.
Definition TimeClip (t : Z) : option Z :=
  if Z.abs t <=? maxTimeValue then Some t else None.

Section TimeZone.

Variable LocalTZA : Zone.

Definition LocalTime (t : Z) : Z := t + LocalTZA t true.
Definition UTC (t : Z) : Z := t - LocalTZA t false.

Definition getField (f : Z -> Z) (d : Date) : option Z :=
  option_map (fun t => f (LocalTime t)) (getTime d).

Definition getHours : Date -> option Z := getField HourFromTime.
Definition getMinutes : Date -> option Z := getField MinFromTime.
Definition getSeconds : Date -> option Z := getField SecFromTime.

(** A setter rebuilds the local time from its fields with one of them
    replaced, converts it back and clips it; a [NaN] argument or an invalid
    date gives an invalid date. *)
Definition setField (mk : Z -> Z -> Z) (v : option Z) (d : Date) : Date :=
  match getTime d, v with
  | Some tv, Some x =>
      let t := LocalTime tv in
      mkDate (TimeClip (UTC (MakeDate (Day t) (mk x t))))
  | _, _ => mkDate None
  end.

Definition setHours : option Z -> Date -> Date :=
  setField (fun h t => MakeTime h (MinFromTime t) (SecFromTime t) (msFromTime t)).
Definition setMinutes : option Z -> Date -> Date :=
  setField (fun m t => MakeTime (HourFromTime t) m (SecFromTime t) (msFromTime t)).
Definition setSeconds : option Z -> Date -> Date :=
  setField (fun s t => MakeTime (HourFromTime t) (MinFromTime t) s (msFromTime t)).
Definition setMilliseconds : option Z -> Date -> Date :=
  setField (fun ms t => MakeTime (HourFromTime t) (MinFromTime t) (SecFromTime t) ms).

(** The time of day that [getHours], [getMinutes] and [getSeconds] read off
    the time value [tv], as milliseconds after local midnight. *)
Definition timeOfDay (tv : Z) : Z :=
  let t := LocalTime tv in
  MakeTime (HourFromTime t) (MinFromTime t) (SecFromTime t) 0.

(** [d.setDate(d.getDate() + n)]: [MakeDay] carries a day of the month past
    the end of the month into the next one, so the day number moves by [n]
    and the time within the day stays. *)
Definition setDate_getDate_plus (n : Z) (d : Date) : Date :=
  match getTime d with
  | Some tv =>
      let t := LocalTime tv in
      mkDate (TimeClip (UTC (MakeDate (Day t + n) (TimeWithinDay t))))
  | None => mkDate None
  end.

(** What the theorems on dates ask of the zone around the instants they
    speak of. The local time [x] is shown by the wall clock: converting it
    to an instant and back gives [x] (it is not skipped by a clock that is
    put forward). *)
Definition shown (x : Z) : Prop := LocalTime (UTC x) = x.

(** No local time of the local day [day] is skipped. *)
Definition noGap (day : Z) : Prop := forall x, Day x = day -> shown x.

(** Offsets stay within a day of UTC. *)
Definition offsetsWithinADay : Prop :=
  forall t b, Z.abs (LocalTZA t b) <= msPerDay.

(** Up to the instant [now] the wall clock has never shown a later date
    than it shows at [now]. *)
Definition dateNotAhead (now : Z) : Prop :=
  forall t, t <= now -> Day (LocalTime t) <= Day (LocalTime now).

(** The clock reading [now] is a time value with room for a few days on
    either side. *)
Definition ordinaryClock (now : Z) : Prop :=
  Z.abs now <= maxTimeValue - 5 * msPerDay.

End TimeZone.

(** The zone of UTC itself. *)
Definition utc : Zone := fun _ _ => 0.

(** New York in the autumn of 2024: four hours behind UTC until the clocks
    are put back at 2024-11-03 06:00 UTC (02:00 local), five hours behind
    from then on. The local hour from 01:00 to 02:00 of that day is
    repeated and takes the earlier offset. *)
Definition fallBackInstant : Z := 1730613600000.
Definition newYorkAutumn2024 : Zone :=
  fun t isUTC =>
    if isUTC
    then if t <? fallBackInstant then -4 * msPerHour else -5 * msPerHour
    else if t + 4 * msPerHour <? fallBackInstant
         then -4 * msPerHour else -5 * msPerHour.

End Date.

(** ** [ModemUtil]: the login-and-restart sequence against the modem *)

Module ModemUtil.

Inductive Protocol : Type := http | https.

Definition Protocol_eqb (a b : Protocol) : bool :=
  match a, b with
  | http, http | https, https => true
  | _, _ => false
  end.

(** [IModemUtilOptions]; an optional field is an [option]. *)
Record IModemUtilOptions : Type := mkOptions {
  username : string;
  password : string;
  ip : string;
  port : option Z;
  protocol : option Protocol
}.

(** The constructor spreads [options] and then writes [protocol] and [port]
    over it. *)
Definition constructor (options : IModemUtilOptions) : IModemUtilOptions :=
  {| username := username options;
     password := password options;
     ip := ip options;
     protocol := Some (match protocol options with Some p => p | None => http end);
     port := Some (match protocol options with Some https => 443 | _ => 80 end) |}.

(** The object handed to [formatUrl]. *)
Record UrlObject : Type := mkUrl {
  url_protocol : option Protocol;
  url_hostname : string;
  url_port : option Z;
  url_pathname : option string;
  url_search : option (list (string * string))
}.

Inductive Method : Type := GET | POST.

(** What [fetch] is called with; [req_body] is the object handed to
    [stringifyQuery], [req_timeout] the argument of [AbortSignal.timeout]. *)
Record Request : Type := mkRequest {
  req_url : UrlObject;
  req_method : Method;
  req_body : option (list (string * string));
  req_timeout : option Z
}.

(** A response whose [text()] resolves to a string, or rejects ([None]). *)
Record Response : Type := mkResponse { text : option string }.

(** How a [fetch] settles: rejected (connection error, abort on timeout) or
    resolved with a response. *)
Inductive FetchOutcome : Type :=
| Rejected
| Resolved (r : Response).

Inductive Error : Type :=
| FetchFailed
| TextFailed
| EmptyLoginToken      (* "Get Frm_Logintoken failed: empty response." *)
| EmptySessionToken    (* "Get session_token failed: empty response." *)
| NullMatch.           (* TypeError: index 1 of the null that match returned *)

(** The network as one run of [restart] sees it: the outcome of its k-th
    [fetch]. *)
Definition Network : Type := nat -> FetchOutcome.

(** Computations of the sequence: they read the network, append to the list
    of requests sent, and return a value or throw. *)
Definition M (A : Type) : Type :=
  Network -> list Request -> (Error + A) * list Request.

Definition ret {A} (a : A) : M A := fun _ sent => (inr a, sent).
Definition throw {A} (e : Error) : M A := fun _ sent => (inl e, sent).
Definition bind {A B} (m : M A) (k : A -> M B) : M B :=
  fun net sent =>
    match m net sent with
    | (inr a, sent') => k a net sent'
    | (inl e, sent') => (inl e, sent')
    end.
Definition catch {A} (m : M A) (h : Error -> M A) : M A :=
  fun net sent =>
    match m net sent with
    | (inl e, sent') => h e net sent'
    | r => r
    end.

Notation "x <- m ;; k" := (bind m (fun x => k))
  (at level 61, m at next level, right associativity).
Notation "m ;; k" := (bind m (fun _ => k))
  (at level 61, right associativity).

Definition fetch (req : Request) : M Response :=
  fun net sent =>
    (match net (List.length sent) with
     | Rejected => inl FetchFailed
     | Resolved r => inr r
     end, (sent ++ [req])).

Definition response_text (r : Response) : M string :=
  match text r with
  | Some html => ret html
  | None => throw TextFailed
  end.

(** [html.match(re)[1]]. *)
Definition matchGroup1 (pre suf html : string) : M string :=
  match JsString.matchCapture pre suf html with
  | Some tok => ret tok
  | None => throw NullMatch
  end.

Definition isEmpty (s : string) : bool :=
  match s with EmptyString => true | _ => false end.

(** [DQ] is the double-quote character of the patterns. *)
Definition DQ : string := String (ascii_of_nat 34) EmptyString.

(** The literal parts of the two regular expressions: what precedes the
    capture group in [getFrmLoginToken] and in [getSessionToken], and what
    follows it in both. *)
Definition loginTokenPre : string :=
  ("getObj(" ++ DQ ++ "Frm_Logintoken" ++ DQ ++ ").value = " ++ DQ)%string.
Definition sessionTokenPre : string := ("var session_token = " ++ DQ)%string.
Definition tokenSuf : string := (DQ ++ ";")%string.

Section Methods.

Variable options : IModemUtilOptions.

Definition baseUrl : UrlObject :=
  {| url_protocol := protocol options;
     url_hostname := ip options;
     url_port := port options;
     url_pathname := None;
     url_search := None |}.

Definition getFrmLoginToken : M string :=
  let url := baseUrl in
  response <- fetch (mkRequest url GET None None) ;;
  html <- response_text response ;;
  if isEmpty html then throw EmptyLoginToken
  else
    matchGroup1 loginTokenPre tokenSuf html.

Definition postLogin (frmLoginToken : string) : M unit :=
  let url := baseUrl in
  let body :=
    [("frashnum", ""); ("action", "login"); ("Frm_Logintoken", frmLoginToken);
     ("username", username options); ("logincode", password options);
     ("textpwd", ""); ("ieversion", "1")] in
  fetch (mkRequest url POST (Some body) None) ;;
  ret tt.

Definition getSessionToken : M string :=
  let url :=
    {| url_protocol := protocol options;
       url_hostname := ip options;
       url_port := port options;
       url_pathname := Some "/web/cmcc/gch/template_user.gch";
       url_search := None |} in
  response <- fetch (mkRequest url GET None None) ;;
  html <- response_text response ;;
  if isEmpty html then throw EmptySessionToken
  else matchGroup1 sessionTokenPre tokenSuf html.

Definition postRestart (sessionToken : string) : M unit :=
  let query :=
    [("pid", "1002"); ("nextpage", "web/cmcc/gch/iot_advance_setting_t.gch")] in
  let url :=
    {| url_protocol := protocol options;
       url_hostname := ip options;
       url_port := port options;
       url_pathname := Some "/web/cmcc/gch/getpage.gch";
       url_search := Some query |} in
  let body :=
    [("IF_ACTION", "devrestart"); ("IF_ERRORSTR", "SUCC");
     ("IF_ERRORPARAM", "SUCC"); ("IF_ERRORTYPE", "-1311313888");
     ("flag", "1"); ("_SESSION_TOKEN_USER", sessionToken)] in
  catch (fetch (mkRequest url POST (Some body) (Some 1000)) ;; ret tt)
        (fun _ => ret tt).

Definition restart : M unit :=
  frmLoginToken <- getFrmLoginToken ;;
  postLogin frmLoginToken ;;
  sessionToken <- getSessionToken ;;
  postRestart sessionToken.

End Methods.

(** One run of [restart] on a fresh list of requests: the outcome and the
    requests sent, in order. *)
Definition run_restart (options : IModemUtilOptions) (net : Network)
  : (Error + unit) * list Request :=
  restart options net [].

End ModemUtil.

(** ** [App]: scoring, the restart guard and the daily schedule *)

Module App.

Import Date.

Record IAppConfig : Type := mkConfig {
  username : string;
  password : string;
  ip : string;
  port : option Z;
  protocol : option ModemUtil.Protocol;
  checkingInterval : Z;
  checkingUrl : string;
  expectedDelay : Z;
  maxBadCount : Z;
  badIncrease : Z;
  goodReduce : Z;
  restartEveryDayTime : option string;
  startDelay : option Z
}.

(** [Partial<IAppConfig>], what [readConfig] returns: a missing key is
    [None]. *)
Record Partial_IAppConfig : Type := mkPartial {
  p_username : option string;
  p_password : option string;
  p_ip : option string;
  p_port : option Z;
  p_protocol : option ModemUtil.Protocol;
  p_checkingInterval : option Z;
  p_checkingUrl : option string;
  p_expectedDelay : option Z;
  p_maxBadCount : option Z;
  p_badIncrease : option Z;
  p_goodReduce : option Z;
  p_restartEveryDayTime : option string;
  p_startDelay : option Z
}.

Definition orDefault {A} (o : option A) (d : A) : A :=
  match o with Some v => v | None => d end.

(** The defaults of the constructor with the keys of the file spread over
    them. *)
Definition mergeConfig (p : Partial_IAppConfig) : IAppConfig :=
  {| ip := orDefault (p_ip p) "192.168.1.1";
     username := orDefault (p_username p) "user";
     password := orDefault (p_password p) "000000";
     checkingInterval := orDefault (p_checkingInterval p) 2000;
     checkingUrl := orDefault (p_checkingUrl p) "https://www.baidu.com";
     expectedDelay := orDefault (p_expectedDelay p) 800;
     maxBadCount := orDefault (p_maxBadCount p) 10;
     badIncrease := orDefault (p_badIncrease p) 2;
     goodReduce := orDefault (p_goodReduce p) 1;
     port := p_port p;
     protocol := p_protocol p;
     restartEveryDayTime := p_restartEveryDayTime p;
     startDelay := p_startDelay p |}.

(** The handle that [setInterval] returns; the program only tests it for
    presence and hands it back to [clearInterval]. *)
Inductive Timeout : Type := TimeoutObject.

(** The fields of the [App] object. *)
Record App : Type := mkApp {
  config : IAppConfig;
  modemUtil : ModemUtil.IModemUtilOptions;
  restartEveryDayDate : option Date;
  currentBadCount : Z;
  checkingIntervalHandler : option Timeout;
  isRestarting : bool
}.

Definition set_currentBadCount (v : Z) (a : App) : App :=
  mkApp (config a) (modemUtil a) (restartEveryDayDate a) v
        (checkingIntervalHandler a) (isRestarting a).
Definition set_checkingIntervalHandler (v : option Timeout) (a : App) : App :=
  mkApp (config a) (modemUtil a) (restartEveryDayDate a) (currentBadCount a)
        v (isRestarting a).
Definition set_isRestarting (v : bool) (a : App) : App :=
  mkApp (config a) (modemUtil a) (restartEveryDayDate a) (currentBadCount a)
        (checkingIntervalHandler a) v.

(** The value of [checkingDelay]: milliseconds, or
    [Number.POSITIVE_INFINITY]. *)
Inductive Delay : Type :=
| Finite (ms : Z)
| POSITIVE_INFINITY.

(** [delay > expected]. *)
Definition gt (delay : Delay) (expected : Z) : bool :=
  match delay with
  | Finite ms => expected <? ms
  | POSITIVE_INFINITY => true
  end.

Inductive Message : Type :=
| CheckingRestartingStatus                 (* "Checking restarting status..." *)
| CheckedStillRestarting                   (* "Checked still restarting." *)
| BadDelay (delay : Delay) (expected count : Z)
| RestartSuccessfully                      (* "Restart successfully." *)
| GoodDelay (delay : Delay) (count : Z)
| CheckingStop                             (* "Checking stop." *)
| CheckingStart                            (* "Checking start." *)
| Restarting                               (* "Restarting..." *)
| RestartFailed                            (* "Restart failed." *)
| ErrorObject (e : ModemUtil.Error)        (* the error that was caught *)
| NextRestartTime (t : Date).

(** The two functions the program hands to [setTimeout]. *)
Inductive Callback : Type :=
| DailyCallback      (* the arrow function of [registerRestartEveryDay] *)
| StartCallback.     (* the arrow function of [run] *)

(** What a segment of the program asks of the runtime, in the order it asks. *)
Inductive Effect : Type :=
| console_log (m : Message)
| console_error (m : Message)
| setInterval (ms : Z)
| clearInterval (h : Timeout)
| setTimeout (cb : Callback) (ms : option Z)
| fetch_checkingUrl (url : string) (startTime : Z)
| modemUtil_restart.

(** How many times a list of effects calls [modemUtil.restart()]. *)
Fixpoint deviceCalls (out : list Effect) : nat :=
  match out with
  | [] => O
  | modemUtil_restart :: out' => S (deviceCalls out')
  | _ :: out' => deviceCalls out'
  end.

(** A synchronous segment: it reads and writes the fields and emits
    effects. *)
Definition Task (A : Type) : Type := App -> A * App * list Effect.

Definition ret {A} (a : A) : Task A := fun s => (a, s, []).
Definition bind {A B} (m : Task A) (k : A -> Task B) : Task B :=
  fun s =>
    match m s with
    | (a, s1, out1) =>
        match k a s1 with
        | (b, s2, out2) => (b, s2, (out1 ++ out2))
        end
    end.
Definition get : Task App := fun s => (s, s, []).
Definition modify (f : App -> App) : Task unit := fun s => (tt, f s, []).
Definition emit (e : Effect) : Task unit := fun s => (tt, s, [e]).
Definition when (b : bool) (m : Task unit) : Task unit :=
  if b then m else ret tt.

Notation "x <- m ;; k" := (bind m (fun x => k))
  (at level 61, m at next level, right associativity).
Notation "m ;; k" := (bind m (fun _ => k))
  (at level 61, right associativity).

Definition state_of {A} (r : A * App * list Effect) : App := snd (fst r).
Definition effects_of {A} (r : A * App * list Effect) : list Effect := snd r.
Definition value_of {A} (r : A * App * list Effect) : A := fst (fst r).

(** The promise an [async] call returns to its caller when its first segment
    ends: already resolved, or pending on an [await]. *)
Inductive Promise : Type := Fulfilled | Pending.

(** [checking()]: arms the interval timer and returns its handle. The body
    of the timer's function is [checking_callback] and [checking_resume]
    below. *)
Definition checking : Task Timeout :=
  this <- get ;;
  emit (setInterval (checkingInterval (config this))) ;;
  ret TimeoutObject.

Definition stopChecking : Task unit :=
  this <- get ;;
  match checkingIntervalHandler this with
  | Some h =>
      emit (clearInterval h) ;;
      modify (set_checkingIntervalHandler None) ;;
      modify (set_currentBadCount 0) ;;
      emit (console_log CheckingStop)
  | None => ret tt
  end.

Definition startChecking : Task unit :=
  this <- get ;;
  match checkingIntervalHandler this with
  | Some _ => ret tt
  | None =>
      emit (console_log CheckingStart) ;;
      h <- checking ;;
      modify (set_checkingIntervalHandler (Some h))
  end.

(** [restartModem()] up to its [await]: the guard, the flag, and the call of
    [modemUtil.restart()]. *)
Definition restartModem : Task Promise :=
  this <- get ;;
  if isRestarting this then ret Fulfilled
  else
    modify (set_isRestarting true) ;;
    emit (console_log Restarting) ;;
    emit modemUtil_restart ;;
    ret Pending.

(** [restartModem()] after its [await], once [modemUtil.restart()] has
    settled with [r]: the [catch] block runs on a rejection. *)
Definition restartModem_resume (r : ModemUtil.Error + unit) : Task unit :=
  match r with
  | inr _ => ret tt
  | inl e =>
      emit (console_error RestartFailed) ;;
      emit (console_error (ErrorObject e)) ;;
      modify (set_isRestarting false)
  end.

(** The reaction [.then(() => this.startChecking())] on the promise [p] that
    [restartModem()] returned: on a fulfilled promise it runs as a microtask,
    once the synchronous code that registered it has finished; on a pending
    promise it runs after [restartModem_resume] (see [restart_settled]). *)
Definition then_startChecking (p : Promise) : Task unit :=
  match p with
  | Fulfilled => startChecking
  | Pending => ret tt
  end.

(** [onBadChecked()]. It is the last statement of its caller, so the
    microtask follows it directly. *)
Definition onBadChecked : Task unit :=
  stopChecking ;;
  p <- restartModem ;;
  then_startChecking p.

(** The timer's function up to its [await]: the note, then [checkingDelay()]
    reads the clock and starts the probe. *)
Definition checking_callback (now : Z) : Task unit :=
  this <- get ;;
  when (isRestarting this) (emit (console_log CheckingRestartingStatus)) ;;
  emit (fetch_checkingUrl (checkingUrl (config this)) now).

(** [checkingDelay()] after its [await]: a rejected probe is infinite delay,
    a resolved one the difference of the two clock readings. *)
Definition checkingDelay (startTime : Z) (settled : option Z) : Delay :=
  match settled with
  | None => POSITIVE_INFINITY
  | Some endTime => Finite (endTime - startTime)
  end.

(** The timer's function after its [await], with the measured [delay]. *)
Definition checking_resume (delay : Delay) : Task unit :=
  this <- get ;;
  if gt delay (expectedDelay (config this)) then
    if isRestarting this then
      emit (console_log CheckedStillRestarting)
    else
      modify (set_currentBadCount
                (currentBadCount this + badIncrease (config this))) ;;
      this <- get ;;
      emit (console_log (BadDelay delay (expectedDelay (config this))
                                  (currentBadCount this))) ;;
      if maxBadCount (config this) <=? currentBadCount this then
        modify (set_currentBadCount 0) ;;
        onBadChecked
      else ret tt
  else
    when (isRestarting this)
         (modify (set_isRestarting false) ;;
          emit (console_log RestartSuccessfully)) ;;
    this <- get ;;
    when (0 <? currentBadCount this)
         (modify (set_currentBadCount
                    (currentBadCount this - goodReduce (config this))) ;;
          this <- get ;;
          emit (console_log (GoodDelay delay (currentBadCount this)))).

(** The task that runs when [modemUtil.restart()] settles: the rest of
    [restartModem], then the reaction registered with [then]. *)
Definition restart_settled (r : ModemUtil.Error + unit) : Task unit :=
  restartModem_resume r ;;
  startChecking.

Section WithLocalTZA.

Variable LocalTZA : Zone.

(** An array element read by destructuring: [undefined] past the end, which
    the setters convert to [NaN]. *)
Definition element (l : list (option Z)) (i : nat) : option (option Z) :=
  nth_error l i.
Definition toNumber (x : option (option Z)) : option Z :=
  match x with Some v => v | None => None end.

Definition parseDate (time : string) (now : Z) : Date :=
  let parts := map JsString.parseInt (JsString.split ":" time) in
  let hour := element parts 0 in
  let minute := element parts 1 in
  let second := element parts 2 in
  let date := mkDate (Some now) in
  let date := setHours LocalTZA (toNumber hour) date in
  let date := setMinutes LocalTZA (toNumber minute) date in
  let date :=
    match second with
    | Some s => setSeconds LocalTZA s date
    | None => setSeconds LocalTZA (Some 0) date
    end in
  setMilliseconds LocalTZA (Some 0) date.

(** [new App()], given the clock and what [readConfig] returned. *)
Definition constructor (file : Partial_IAppConfig) (now : Z) : App :=
  let config := mergeConfig file in
  {| config := config;
     restartEveryDayDate :=
       match restartEveryDayTime config with
       | Some time =>
           if ModemUtil.isEmpty time then None else Some (parseDate time now)
       | None => None
       end;
     modemUtil :=
       ModemUtil.constructor
         (ModemUtil.mkOptions (username config) (password config) (ip config)
                              (port config) (protocol config));
     currentBadCount := 0;
     checkingIntervalHandler := None;
     isRestarting := false |}.

(** [a <= b] on numbers that may be [NaN]: false when either is. *)
Definition le_number (a b : option Z) : bool :=
  match a, b with
  | Some x, Some y => x <=? y
  | _, _ => false
  end.
Definition sub_number (a b : option Z) : option Z :=
  match a, b with
  | Some x, Some y => Some (x - y)
  | _, _ => None
  end.

(** The instant that [registerRestartEveryDay] computes from the configured
    date and the clock. *)
Definition nextRestartTime (restartEveryDayDate : Date) (nowMs : Z) : Date :=
  let now := mkDate (Some nowMs) in
  let next := now in
  let next := setHours LocalTZA (getHours LocalTZA restartEveryDayDate) next in
  let next := setMinutes LocalTZA (getMinutes LocalTZA restartEveryDayDate) next in
  let next := setSeconds LocalTZA (getSeconds LocalTZA restartEveryDayDate) next in
  let next := setMilliseconds LocalTZA (Some 0) next in
  if le_number (getTime next) (getTime now)
  then setDate_getDate_plus LocalTZA 1 next
  else next.

Definition registerRestartEveryDay (nowMs : Z) : Task unit :=
  this <- get ;;
  match restartEveryDayDate this with
  | None => ret tt
  | Some d =>
      let next := nextRestartTime d nowMs in
      let diff := sub_number (getTime next) (Some nowMs) in
      emit (console_log (NextRestartTime next)) ;;
      emit (setTimeout DailyCallback diff)
  end.

(** The function armed by [registerRestartEveryDay], run as one task at
    clock [now]; the reaction on an already fulfilled promise runs after the
    synchronous code, so after the re-arming. *)
Definition daily_callback (now : Z) : Task unit :=
  stopChecking ;;
  p <- restartModem ;;
  registerRestartEveryDay now ;;
  then_startChecking p.

Definition start_callback (now : Z) : Task unit :=
  startChecking ;;
  registerRestartEveryDay now.

Definition run (now : Z) : Task unit :=
  this <- get ;;
  match startDelay (config this) with
  | Some d =>
      if 0 <? d then emit (setTimeout StartCallback (Some d))
      else start_callback now
  | None => start_callback now
  end.

(** *** The event loop

    The runtime side of the program: which timers are armed, which probes
    and device calls are in flight, and everything emitted so far. An event
    is a task that the runtime starts at clock reading [at]; an event that
    nothing has armed leaves the world as it is. *)

Record World : Type := mkWorld {
  app : App;
  interval : bool;                  (* the interval timer is armed *)
  probes : list Z;                  (* start times of the probes in flight *)
  restarts : nat;                   (* [modemUtil.restart()] calls not settled *)
  timeouts : list (Callback * Z);   (* one-shot timers and when they are due *)
  output : list Effect              (* all effects so far, oldest first *)
}.

Inductive Happening : Type :=
| IntervalFires
| ProbeSettles (i : nat) (ok : bool)   (* the i-th probe in flight resolves or rejects *)
| RestartSettles (r : ModemUtil.Error + unit)
| TimeoutFires (i : nat).              (* the i-th one-shot timer fires *)

Record Event : Type := mkEvent { at_ : Z; what : Happening }.

(** The delay that Node gives a timer: its argument when that is between 1
    and [2^31 - 1], else 1. *)
Definition timerDelay (ms : option Z) : Z :=
  match ms with
  | Some d => if (1 <=? d) && (d <=? 2147483647) then d else 1
  | None => 1
  end.

(** The one-shot timers that a list of effects emitted at clock [now] arms,
    with the instants they are due. *)
Fixpoint armed (now : Z) (out : list Effect) : list (Callback * Z) :=
  match out with
  | [] => []
  | setTimeout cb ms :: out' => (cb, now + timerDelay ms) :: armed now out'
  | _ :: out' => armed now out'
  end.

(** Whether the interval timer is armed after a list of effects, given
    whether it was before. *)
Fixpoint pollingAfter (armedBefore : bool) (out : list Effect) : bool :=
  match out with
  | [] => armedBefore
  | setInterval _ :: out' => pollingAfter true out'
  | clearInterval _ :: out' => pollingAfter false out'
  | _ :: out' => pollingAfter armedBefore out'
  end.

(** Calls of [setInterval] minus calls of [clearInterval]. *)
Fixpoint intervalBalance (out : list Effect) : Z :=
  match out with
  | [] => 0
  | setInterval _ :: out' => 1 + intervalBalance out'
  | clearInterval _ :: out' => intervalBalance out' - 1
  | _ :: out' => intervalBalance out'
  end.

(** The probes that a list of effects starts, by start time. *)
Fixpoint started (out : list Effect) : list Z :=
  match out with
  | [] => []
  | fetch_checkingUrl _ startTime :: out' => startTime :: started out'
  | _ :: out' => started out'
  end.

Definition isSome {A} (o : option A) : bool :=
  match o with Some _ => true | None => false end.

Fixpoint remove_nth {A} (i : nat) (l : list A) : list A :=
  match l, i with
  | [], _ => []
  | _ :: l', O => l'
  | x :: l', S i' => x :: remove_nth i' l'
  end.

(** The runtime's bookkeeping for one effect emitted at clock [now]. *)
Definition perform (now : Z) (w : World) (e : Effect) : World :=
  match e with
  | setInterval _ =>
      mkWorld (app w) true (probes w) (restarts w) (timeouts w) (output w ++ [e])
  | clearInterval _ =>
      mkWorld (app w) false (probes w) (restarts w) (timeouts w) (output w ++ [e])
  | setTimeout cb ms =>
      mkWorld (app w) (interval w) (probes w) (restarts w)
              (timeouts w ++ [(cb, now + timerDelay ms)]) (output w ++ [e])
  | fetch_checkingUrl _ startTime =>
      mkWorld (app w) (interval w) (probes w ++ [startTime]) (restarts w)
              (timeouts w) (output w ++ [e])
  | modemUtil_restart =>
      mkWorld (app w) (interval w) (probes w) (S (restarts w)) (timeouts w)
              (output w ++ [e])
  | console_log _ | console_error _ =>
      mkWorld (app w) (interval w) (probes w) (restarts w) (timeouts w)
              (output w ++ [e])
  end.

(** Runs one task on the fields and lets the runtime perform its effects. *)
Definition run_task (now : Z) (t : Task unit) (w : World) : World :=
  match t (app w) with
  | (_, a, out) =>
      fold_left (perform now)
                out
                (mkWorld a (interval w) (probes w) (restarts w) (timeouts w)
                         (output w))
  end.

(** The task an event starts, with the world in which what fired has been
    consumed; [None] when the event is not armed. *)
Definition task_of (w : World) (ev : Event) : option (World * Task unit) :=
  let now := at_ ev in
  match what ev with
  | IntervalFires =>
      if interval w then Some (w, checking_callback now) else None
  | ProbeSettles i ok =>
      match nth_error (probes w) i with
      | Some startTime =>
          Some (mkWorld (app w) (interval w) (remove_nth i (probes w))
                        (restarts w) (timeouts w) (output w),
                checking_resume
                  (checkingDelay startTime (if ok then Some now else None)))
      | None => None
      end
  | RestartSettles r =>
      match restarts w with
      | S n =>
          Some (mkWorld (app w) (interval w) (probes w) n (timeouts w)
                        (output w),
                restart_settled r)
      | O => None
      end
  | TimeoutFires i =>
      match nth_error (timeouts w) i with
      | Some (cb, due) =>
          if due <=? now then
            Some (mkWorld (app w) (interval w) (probes w) (restarts w)
                          (remove_nth i (timeouts w)) (output w),
                  match cb with
                  | DailyCallback => daily_callback now
                  | StartCallback => start_callback now
                  end)
          else None
      | None => None
      end
  end.

(** The tasks the event loop can start at clock [now]. *)
Inductive program_task (now : Z) : Task unit -> Prop :=
| task_callback : program_task now (checking_callback now)
| task_resume delay : program_task now (checking_resume delay)
| task_settled r : program_task now (restart_settled r)
| task_daily : program_task now (daily_callback now)
| task_start : program_task now (start_callback now).

(** What an event consumes and which task it starts, case by case (the
    relational reading of [task_of]). *)
Inductive starts (w : World) (ev : Event) : World -> Task unit -> Prop :=
| starts_tick :
    what ev = IntervalFires ->
    interval w = true ->
    starts w ev w (checking_callback (at_ ev))
| starts_probe i ok startTime :
    what ev = ProbeSettles i ok ->
    nth_error (probes w) i = Some startTime ->
    starts w ev
           (mkWorld (app w) (interval w) (remove_nth i (probes w))
                    (restarts w) (timeouts w) (output w))
           (checking_resume
              (checkingDelay startTime (if ok then Some (at_ ev) else None)))
| starts_settled r n :
    what ev = RestartSettles r ->
    restarts w = S n ->
    starts w ev
           (mkWorld (app w) (interval w) (probes w) n (timeouts w) (output w))
           (restart_settled r)
| starts_timer i cb due :
    what ev = TimeoutFires i ->
    nth_error (timeouts w) i = Some (cb, due) ->
    due <= at_ ev ->
    starts w ev
           (mkWorld (app w) (interval w) (probes w) (restarts w)
                    (remove_nth i (timeouts w)) (output w))
           (match cb with
            | DailyCallback => daily_callback (at_ ev)
            | StartCallback => start_callback (at_ ev)
            end).

(** The timer side of a world is in order: the handle field tells whether
    the interval timer is armed; [setInterval] and [clearInterval] balance
    accordingly; and either the start timer alone is pending and nothing
    has begun, or the program has started, polling is active or a device
    call is pending, and the one-shot timers are the daily timer alone when
    a daily date is configured and none when it is not. *)
Definition orderly (w : World) : Prop :=
  interval w = isSome (checkingIntervalHandler (app w))
  /\ intervalBalance (output w) = Z.b2z (interval w)
  /\ ((exists due, timeouts w = [(StartCallback, due)]
                   /\ interval w = false /\ restarts w = O /\ probes w = [])
      \/ ((interval w = true \/ (0 < restarts w)%nat)
          /\ match restartEveryDayDate (app w) with
             | Some _ => exists due, timeouts w = [(DailyCallback, due)]
             | None => timeouts w = []
             end)).

Definition step (w : World) (ev : Event) : World :=
  match task_of w ev with
  | Some (w', t) => run_task (at_ ev) t w'
  | None => w
  end.

Definition steps (w : World) (evs : list Event) : World := fold_left step evs w.

(** What an observer [f] sees after each event of a run. *)
Fixpoint observe {A} (f : World -> A) (w : World) (evs : list Event) : list A :=
  match evs with
  | [] => []
  | ev :: evs' => let w' := step w ev in f w' :: observe f w' evs'
  end.

(** [new App().run()] at clock [now] with [file] as the configuration
    read. *)
Definition boot (file : Partial_IAppConfig) (now : Z) : World :=
  run_task now (run now) (mkWorld (constructor file now) false [] O [] []).

End WithLocalTZA.

End App.

(** ** What the restart sequence expects of the modem, and concrete runs *)

Module Scenario.

Import ModemUtil.

(** A fetch that resolved with a page that is not empty and on which the
    pattern matches: what a token step needs in order not to throw. *)
Definition tokenPage (pre : string) (o : FetchOutcome) : bool :=
  match o with
  | Resolved r =>
      match text r with
      | Some html =>
          negb (isEmpty html)
          && match JsString.matchCapture pre tokenSuf html with
             | Some _ => true
             | None => false
             end
      | None => false
      end
  | Rejected => false
  end.

(** A fetch that resolved, whatever the response. *)
Definition answered (o : FetchOutcome) : bool :=
  match o with
  | Resolved _ => true
  | Rejected => false
  end.

(** [restart()] resolved rather than rejected. *)
Definition succeeded (r : Error + unit) : bool :=
  match r with
  | inr _ => true
  | inl _ => false
  end.

(** The network [net] with the outcome of its k-th fetch replaced. *)
Definition withOutcome (k : nat) (o : FetchOutcome) (net : Network) : Network :=
  fun i => if Nat.eqb i k then o else net i.

Definition page (html : string) : FetchOutcome := Resolved (mkResponse (Some html)).

Definition loginPage : string :=
  (loginTokenPre ++ "31415926" ++ tokenSuf)%string.
Definition userPage : string :=
  (sessionTokenPre ++ "27182818" ++ tokenSuf)%string.

(** A modem that serves both token pages, answers the login with an empty
    body, and drops the connection on the restart command. *)
Definition modemEmptyLogin : Network :=
  fun k =>
    match k with
    | 0%nat => page loginPage
    | 1%nat => page ""
    | 2%nat => page userPage
    | _ => Rejected
    end.

(** A modem that answers every step, the restart command included. *)
Definition modemAnswers : Network :=
  fun k =>
    match k with
    | 0%nat => page loginPage
    | 2%nat => page userPage
    | _ => page "ok"
    end.

(** A modem whose login step fails at the network level. *)
Definition modemLoginRefused : Network :=
  fun k =>
    match k with
    | 0%nat => page loginPage
    | _ => Rejected
    end.

(** Options that name port 8080. *)
Definition optionsPort8080 : IModemUtilOptions :=
  {| username := "user"; password := "000000"; ip := "192.168.1.1";
     port := Some 8080; protocol := None |}.

(** A configuration file that holds nothing: every default applies
    ([expectedDelay] 800, [maxBadCount] 10, [badIncrease] 2,
    [goodReduce] 1, polling every 2000 ms). *)
Definition emptyFile : App.Partial_IAppConfig :=
  App.mkPartial None None None None None None None None None None None None None.

Definition tick (now : Z) : App.Event := App.mkEvent now App.IntervalFires.
Definition settles (now : Z) (i : nat) (ok : bool) : App.Event :=
  App.mkEvent now (App.ProbeSettles i ok).
Definition fires (now : Z) (i : nat) : App.Event :=
  App.mkEvent now (App.TimeoutFires i).

(** Five probes, one per tick, each answered after 2000 ms. *)
Definition fiveBadSamples : list App.Event :=
  [tick 2000; settles 4000 0 true;
   tick 4000; settles 6000 0 true;
   tick 6000; settles 8000 0 true;
   tick 8000; settles 10000 0 true;
   tick 10000; settles 12000 0 true].

(** The world after [new App().run()] at clock 0 with every default, and
    its fields once the five samples have triggered a restart. *)
Definition freshWorld : App.World := App.boot Date.utc emptyFile 0.
Definition triggeredWorld : App.World := App.steps Date.utc freshWorld fiveBadSamples.

(** The device call then settles, 500 ms later: rejected because the login
    step failed, or resolved. *)
Definition loginFails : App.Event :=
  App.mkEvent 12500
    (App.RestartSettles
       (fst (run_restart (App.modemUtil (App.app triggeredWorld))
                         modemLoginRefused))).
Definition restartDone : App.Event :=
  App.mkEvent 12500
    (App.RestartSettles
       (fst (run_restart (App.modemUtil (App.app triggeredWorld))
                         modemAnswers))).

(** A file that sets [port] to 8080 (the other keys keep their defaults). *)
Definition filePort8080 : App.Partial_IAppConfig :=
  App.mkPartial None None None (Some 8080) None None None None None None None
                None None.

(** A file that sets [goodReduce] (the other keys keep their defaults). *)
Definition fileGoodReduce (n : Z) : App.Partial_IAppConfig :=
  App.mkPartial None None None None None None None None None None (Some n)
                None None.

(** One bad sample (2000 ms), then one good sample (100 ms). *)
Definition badThenGood : list App.Event :=
  [tick 2000; settles 4000 0 true; tick 4000; settles 4100 0 true].

(** The fields after one bad sample under [goodReduce] 5: the counter is
    2. *)
Definition afterOneBad : App.App :=
  App.app (App.steps Date.utc (App.boot Date.utc (fileGoodReduce 5) 0)
                     [tick 2000; settles 4000 0 true]).

(** Two bad samples and one good one under the defaults: the counter is
    3. *)
Definition counterAtThree : App.App :=
  App.app (App.steps Date.utc freshWorld
                     [tick 2000; settles 4000 0 true;
                      tick 4000; settles 6000 0 true;
                      tick 6000; settles 6100 0 true]).

(** A file with a threshold of 5000 ms, a ceiling of 4 and a daily restart
    at 03:00. *)
Definition fileSlowLink : App.Partial_IAppConfig :=
  App.mkPartial None None None None None None None (Some 5000) (Some 4) None
                None (Some "03:00") None.

(** Local midnight is clock 0 (offset 0); the program starts at 02:59:48. *)
Definition startedAt : Z := 3 * 3600000 - 12000.

(** The program just after it started with that file: the daily timer is
    armed for 03:00:00, which is clock 10800000. *)
Definition dailyWorld : App.World := App.boot Date.utc fileSlowLink startedAt.

(** Five probes are started two seconds apart and stay in flight. Two are
    rejected and trigger a restart; of the three still in flight, one
    resolves within the threshold and clears the flag, one is rejected and
    counts; then the daily timer fires at 03:00:00 while the first device
    call is still pending. *)
Definition overlappingProbes : list App.Event :=
  [tick (startedAt + 2000); tick (startedAt + 4000); tick (startedAt + 6000);
   tick (startedAt + 8000); tick (startedAt + 10000);
   settles (startedAt + 10100) 0 false;
   settles (startedAt + 10200) 0 false;
   settles (startedAt + 10300) 1 true;
   settles (startedAt + 10400) 0 false;
   fires (startedAt + 12000) 0].

Definition secondRestartWorld : App.World :=
  App.steps Date.utc dailyWorld overlappingProbes.


(** The program started in New York at 02:59:48 on 2 November 2024 with a
    daily restart at 03:00: the daily timer is armed for 03:00:00 of that
    day, which is 07:00:00 UTC. *)
Definition newYorkWorld : App.World :=
  App.boot Date.newYorkAutumn2024
           (App.mkPartial None None None None None None None None None None
                          None (Some "03:00") None)
           1730530788000.

(** A file that sets the daily restart time, and one that sets the startup
    delay (the other keys keep their defaults). *)
Definition fileDailyTime (time : string) : App.Partial_IAppConfig :=
  App.mkPartial None None None None None None None None None None None
                (Some time) None.
Definition fileStartDelay (d : Z) : App.Partial_IAppConfig :=
  App.mkPartial None None None None None None None None None None None None
                (Some d).

(** A login page as a modem serves it: markup, the line of script that
    assigns the token, more markup. The token holds a semicolon. *)
Definition LF : string := String (ascii_of_nat 10) EmptyString.
Definition servedLoginPage : string :=
  ("<html><script>" ++ LF
   ++ loginTokenPre ++ "a;b" ++ tokenSuf
   ++ LF ++ "</script></html>")%string.

(** The last probe in flight resolves 2100 ms after it started. *)
Definition lateGoodSample : App.Event := settles (startedAt + 12100) 0 true.

End Scenario.

(** * Theorems *)

(** ** The restart sequence *)

Section RestartSequence.

Import ModemUtil Scenario.

Variable options : IModemUtilOptions.

Ltac unfold_restart :=
  unfold run_restart, restart, getFrmLoginToken, postLogin, getSessionToken,
    postRestart, bind, catch, fetch, response_text, matchGroup1, ret, throw.

(** The constructor keeps none of the port it is given: the port it stores
    follows from the protocol alone. *)
Lemma constructor_port :
  port (constructor options)
  = Some (match protocol options with Some https => 443 | _ => 80 end).
Proof. reflexivity. Qed.

Lemma constructor_protocol :
  protocol (constructor options)
  = Some (match protocol options with Some p => p | None => http end).
Proof. reflexivity. Qed.

(** C7 (as amended). [restart()] resolves exactly when the login-token page
    and the session-token page both arrive non-empty with their pattern on
    them and the login POST is answered at all; whatever the login response
    holds is not looked at. The outcome of the fourth fetch, the restart
    command, never changes the result: its rejection (timeout after 1000 ms
    or a dropped connection) is absorbed. That command is sent only when the
    first three steps went through, and with the 1000 ms abort signal. *)
Theorem C7_restart_outcome (net : Network) :
  succeeded (fst (run_restart options net))
  = tokenPage loginTokenPre (net 0%nat)
    && answered (net 1%nat)
    && tokenPage sessionTokenPre (net 2%nat)
  /\ (forall o : FetchOutcome,
        fst (run_restart options (withOutcome 3 o net))
        = fst (run_restart options net))
  /\ option_map req_timeout (nth_error (snd (run_restart options net)) 3)
     = (if succeeded (fst (run_restart options net))
        then Some (Some 1000) else None)
  /\ List.length (snd (run_restart options net))
     = (if tokenPage loginTokenPre (net 0%nat)
        then if answered (net 1%nat)
             then if tokenPage sessionTokenPre (net 2%nat) then 4 else 3
             else 2
        else 1)%nat.
Proof.
  unfold_restart. unfold tokenPage, answered, withOutcome, succeeded. simpl.
  destruct (net 0%nat) as [|[[html0|]]]; simpl; try (repeat split; reflexivity).
  destruct (isEmpty html0); simpl; try (repeat split; reflexivity).
  destruct (JsString.matchCapture loginTokenPre tokenSuf html0); simpl;
    try (repeat split; reflexivity).
  destruct (net 1%nat); simpl; try (repeat split; reflexivity).
  destruct (net 2%nat) as [|[[html2|]]]; simpl; try (repeat split; reflexivity).
  destruct (isEmpty html2); simpl; try (repeat split; reflexivity).
  destruct (JsString.matchCapture sessionTokenPre tokenSuf html2); simpl;
    try (repeat split; reflexivity).
  destruct (net 3%nat); simpl; repeat split; try reflexivity;
    intros []; reflexivity.
Qed.

End RestartSequence.

(** C7, the claim as stated fails: the login step returns an empty response
    (and the restart command is dropped), yet [restart()] resolves. *)
Lemma C7_empty_login_response_succeeds :
  Scenario.modemEmptyLogin 1%nat = Scenario.page ""
  /\ Scenario.modemEmptyLogin 3%nat = ModemUtil.Rejected
  /\ fst (ModemUtil.run_restart Scenario.optionsPort8080 Scenario.modemEmptyLogin)
     = inr tt
  /\ List.length
       (snd (ModemUtil.run_restart Scenario.optionsPort8080
                                   Scenario.modemEmptyLogin))
     = 4%nat.
Proof. repeat split; reflexivity. Qed.

(** A network failure at the login step rejects [restart()]. *)
Lemma login_refused_fails :
  fst (ModemUtil.run_restart Scenario.optionsPort8080 Scenario.modemLoginRefused)
  = inl ModemUtil.FetchFailed.
Proof. reflexivity. Qed.

(** C8. Built from options that name port 8080 (and no protocol), the
    restarter sends every request of the sequence to port 80: the
    constructor overwrites the port it was given. The protocol does default
    to [http]. The same holds for the restarter that [App] builds from a
    configuration file whose port is 8080. *)
Theorem C8_supplied_port_not_used :
  let this := ModemUtil.constructor Scenario.optionsPort8080 in
  map (fun r => ModemUtil.url_port (ModemUtil.req_url r))
      (snd (ModemUtil.run_restart this Scenario.modemAnswers))
  = [Some 80; Some 80; Some 80; Some 80]
  /\ map (fun r => ModemUtil.url_protocol (ModemUtil.req_url r))
         (snd (ModemUtil.run_restart this Scenario.modemAnswers))
     = [Some ModemUtil.http; Some ModemUtil.http; Some ModemUtil.http;
        Some ModemUtil.http]
  /\ ModemUtil.port Scenario.optionsPort8080 = Some 8080
  /\ App.port (App.config (App.constructor Date.utc Scenario.filePort8080 0))
     = Some 8080
  /\ ModemUtil.port (App.modemUtil (App.constructor Date.utc Scenario.filePort8080 0))
     = Some 80.
Proof. repeat split; reflexivity. Qed.

(** ** The tasks of [App], one at a time *)

Section Tasks.

Import App Scenario.

Ltac run_task_tac :=
  unfold daily_callback, start_callback, restart_settled, checking_resume,
    checking_callback, onBadChecked, then_startChecking,
    registerRestartEveryDay, stopChecking, restartModem, restartModem_resume,
    startChecking, checking, when, bind, get, modify, emit, ret,
    state_of, effects_of, value_of,
    set_currentBadCount, set_isRestarting, set_checkingIntervalHandler;
  simpl.

Ltac field_cases :=
  do 3 eexists; split; [reflexivity | ];
  first [ left; reflexivity
        | right; left; reflexivity
        | right; right; left; split; [reflexivity | lia]
        | right; right; right; split; [reflexivity | lia] ].

(** How a task may leave the fields: the configuration, the restarter and
    the configured date as they were; the counter as it was, or zero, or
    raised by [badIncrease] while staying under the ceiling, or lowered by
    [goodReduce] from a positive value. *)
Lemma program_task_state (tza : Date.Zone) (now : Z) (t : Task unit)
    (this : App) :
  program_task tza now t ->
  exists c' h' f',
    state_of (t this)
    = mkApp (config this) (modemUtil this) (restartEveryDayDate this) c' h' f'
    /\ (c' = currentBadCount this
        \/ c' = 0
        \/ (c' = currentBadCount this + badIncrease (config this)
            /\ c' < maxBadCount (config this))
        \/ (c' = currentBadCount this - goodReduce (config this)
            /\ 0 < currentBadCount this)).
Proof.
  intros Ht. destruct this as [cfg mu d c h flag].
  destruct Ht as [ | delay | r | | ]; run_task_tac.
  - destruct flag; simpl; field_cases.
  - destruct (gt delay (expectedDelay cfg)); simpl.
    + destruct flag; simpl; [field_cases | ].
      destruct (maxBadCount cfg <=? c + badIncrease cfg) eqn:E; simpl.
      * destruct h; simpl; field_cases.
      * apply Z.leb_gt in E. field_cases.
    + destruct flag; simpl; destruct (0 <? c) eqn:E; simpl;
        try (apply Z.ltb_lt in E); field_cases.
  - destruct r; simpl; destruct h; simpl; field_cases.
  - destruct h, flag, d; simpl; field_cases.
  - destruct h, d; simpl; field_cases.
Qed.


(** [delay > expected] holds for an infinite delay whatever the threshold,
    and for a finite one exactly when it is strictly larger. *)
Lemma gt_spec (delay : Delay) (expected : Z) :
  gt delay expected = true
  <-> match delay with Finite ms => expected < ms | POSITIVE_INFINITY => True end.
Proof.
  destruct delay as [ms|]; simpl; [apply Z.ltb_lt | tauto].
Qed.

(** C2. With [restarting] false, a sample whose delay is strictly above
    [expectedDelay] adds [badIncrease] to the counter; when the sum reaches
    [maxBadCount] the counter goes back to 0, polling stops, the flag is set
    and the device restart is called, otherwise nothing else happens. A
    probe that fails is an infinite delay, above every threshold. With the
    defaults (ceiling 10, increase 2, threshold 800 ms), five samples of
    2000 ms show the counts 2, 4, 6, 8, 10 in the log, leave the counter at
    2, 4, 6, 8, 0, and only the fifth calls the device. *)
Theorem C2_bad_sample (this : App) (delay : Delay) :
  isRestarting this = false ->
  gt delay (expectedDelay (config this)) = true ->
  let count := currentBadCount this + badIncrease (config this) in
  let r := checking_resume delay this in
  let note := console_log (BadDelay delay (expectedDelay (config this)) count) in
  state_of r
  = (if maxBadCount (config this) <=? count
     then mkApp (config this) (modemUtil this) (restartEveryDayDate this)
                0 None true
     else set_currentBadCount count this)
  /\ effects_of r
     = (if maxBadCount (config this) <=? count
        then note
             :: match checkingIntervalHandler this with
                | Some h => [clearInterval h; console_log CheckingStop]
                | None => []
                end
             ++ [console_log Restarting; modemUtil_restart]
        else [note])
  /\ (forall startTime expected,
        gt (checkingDelay startTime None) expected = true)
  /\ observe Date.utc (fun w => (currentBadCount (app w), restarts w))
             freshWorld fiveBadSamples
     = [(0, 0%nat); (2, 0%nat); (2, 0%nat); (4, 0%nat); (4, 0%nat);
        (6, 0%nat); (6, 0%nat); (8, 0%nat); (8, 0%nat); (0, 1%nat)]
  /\ output triggeredWorld
     = [console_log CheckingStart; setInterval 2000;
        fetch_checkingUrl "https://www.baidu.com" 2000;
        console_log (BadDelay (Finite 2000) 800 2);
        fetch_checkingUrl "https://www.baidu.com" 4000;
        console_log (BadDelay (Finite 2000) 800 4);
        fetch_checkingUrl "https://www.baidu.com" 6000;
        console_log (BadDelay (Finite 2000) 800 6);
        fetch_checkingUrl "https://www.baidu.com" 8000;
        console_log (BadDelay (Finite 2000) 800 8);
        fetch_checkingUrl "https://www.baidu.com" 10000;
        console_log (BadDelay (Finite 2000) 800 10);
        clearInterval TimeoutObject; console_log CheckingStop;
        console_log Restarting; modemUtil_restart].
Proof.
  intros Hflag Hgt count r note.
  split; [ | split; [ | split; [ | split ] ] ].
  - destruct this as [cfg mu d c h flag]. simpl in *. subst flag.
    subst r note count. run_task_tac. rewrite Hgt. simpl.
    destruct (maxBadCount cfg <=? c + badIncrease cfg); simpl;
      [destruct h; reflexivity | reflexivity].
  - destruct this as [cfg mu d c h flag]. simpl in *. subst flag.
    subst r note count. run_task_tac. rewrite Hgt. simpl.
    destruct (maxBadCount cfg <=? c + badIncrease cfg); simpl;
      [destruct h; reflexivity | reflexivity].
  - reflexivity.
  - vm_compute. reflexivity.
  - vm_compute. reflexivity.
Qed.

(** C2 on the fresh program: a sample of 2000 ms takes the counter from 0
    to 2. *)
Lemma C2_bad_sample_witness :
  isRestarting (app freshWorld) = false
  /\ gt (Finite 2000) (expectedDelay (config (app freshWorld))) = true
  /\ currentBadCount
       (state_of (checking_resume (Finite 2000) (app freshWorld))) = 2.
Proof.
  split; [reflexivity | split; [reflexivity | ]].
  destruct (C2_bad_sample (app freshWorld) (Finite 2000) eq_refl eq_refl)
    as [H _].
  rewrite H. reflexivity.
Defined.

(** What a good sample does, whatever the flag: the flag is false
    afterwards, and a positive counter has lost [goodReduce]; nothing keeps
    the difference at or above zero. *)
Lemma good_sample (this : App) (delay : Delay) :
  gt delay (expectedDelay (config this)) = false ->
  state_of (checking_resume delay this)
  = mkApp (config this) (modemUtil this) (restartEveryDayDate this)
          (if 0 <? currentBadCount this
           then currentBadCount this - goodReduce (config this)
           else currentBadCount this)
          (checkingIntervalHandler this) false.
Proof.
  intros Hgt. destruct this as [cfg mu d c h flag]. simpl in *.
  run_task_tac. rewrite Hgt. simpl.
  destruct flag; simpl; destruct (0 <? c); reflexivity.
Qed.

(** With [goodReduce] 1 and the counter at 3, one sample of 100 ms leaves
    2. *)
Lemma good_sample_three_to_two :
  currentBadCount counterAtThree = 3
  /\ goodReduce (config counterAtThree) = 1
  /\ currentBadCount (state_of (checking_resume (Finite 100) counterAtThree)) = 2.
Proof. repeat split; vm_compute; reflexivity. Qed.

(** C5. Under [goodReduce] 5, after one bad sample the counter is 2; a good
    sample of 100 ms then leaves it at -3, below the floor of 0 that the
    decrement is meant to have. *)
Theorem C5_good_sample_below_zero :
  currentBadCount afterOneBad = 2
  /\ goodReduce (config afterOneBad) = 5
  /\ gt (Finite 100) (expectedDelay (config afterOneBad)) = false
  /\ currentBadCount (state_of (checking_resume (Finite 100) afterOneBad)) = -3.
Proof. repeat split; vm_compute; reflexivity. Qed.

(** C9 (as amended). While [restarting] is true, a bad sample changes
    nothing and only notes that the restart is still going on; a good
    sample clears the flag and then treats the counter as a good sample
    is meant to: a counter that is not positive stays as it is, a counter
    of at least [goodReduce] loses [goodReduce]. (A positive counter below
    [goodReduce] is the case of C5 and is left out here.) The counter is
    zero whenever the flag was set by the bad-score path, and whenever the
    daily timer fired with polling active. *)
Theorem C9_samples_while_restarting (this : App) (delay : Delay) :
  isRestarting this = true ->
  let r := checking_resume delay this in
  (gt delay (expectedDelay (config this)) = true ->
   state_of r = this /\ effects_of r = [console_log CheckedStillRestarting])
  /\ (gt delay (expectedDelay (config this)) = false ->
      isRestarting (state_of r) = false
      /\ (currentBadCount this <= 0 ->
          currentBadCount (state_of r) = currentBadCount this)
      /\ (0 < currentBadCount this ->
          goodReduce (config this) <= currentBadCount this ->
          currentBadCount (state_of r)
          = currentBadCount this - goodReduce (config this)))
  /\ (currentBadCount this = 0 -> currentBadCount (state_of r) = 0)
  /\ (forall (s : App) (delay' : Delay),
        isRestarting s = false ->
        isRestarting (state_of (checking_resume delay' s)) = true ->
        currentBadCount (state_of (checking_resume delay' s)) = 0)
  /\ (forall (tza : Date.Zone) (now : Z) (s : App),
        checkingIntervalHandler s <> None ->
        currentBadCount (state_of (daily_callback tza now s)) = 0).
Proof.
  intros Hflag r. subst r.
  split; [ | split; [ | split; [ | split ] ] ].
  - intros Hgt. destruct this as [cfg mu d c h flag]. simpl in *. subst flag.
    run_task_tac. rewrite Hgt. simpl. split; reflexivity.
  - intros Hgt. rewrite (good_sample this delay Hgt). cbn [isRestarting currentBadCount].
    split; [reflexivity | split].
    + intros Hle. destruct (0 <? currentBadCount this) eqn:E;
        [apply Z.ltb_lt in E; lia | reflexivity].
    + intros Hpos _. destruct (0 <? currentBadCount this) eqn:E;
        [reflexivity | apply Z.ltb_ge in E; lia].
  - intros Hzero. destruct this as [cfg mu d c h flag]. simpl in *. subst.
    run_task_tac. destruct (gt delay (expectedDelay cfg)); reflexivity.
  - intros s delay' Hs. destruct s as [cfg mu d c h flag]. simpl in Hs.
    subst flag. run_task_tac.
    destruct (gt delay' (expectedDelay cfg)); simpl.
    + destruct (maxBadCount cfg <=? c + badIncrease cfg); simpl;
        [destruct h; reflexivity | discriminate].
    + destruct (0 <? c); simpl; discriminate.
  - intros tza now s Hh. destruct s as [cfg mu d c h flag]. simpl in Hh.
    destruct h as [h|]; [ | congruence ].
    run_task_tac. destruct flag, d; reflexivity.
Qed.

(** C9 (as amended) on the program that has just triggered a restart: a
    good sample clears the flag and leaves the counter at 0. *)
Lemma C9_samples_while_restarting_witness :
  isRestarting (app triggeredWorld) = true
  /\ currentBadCount
       (state_of (checking_resume (Finite 100) (app triggeredWorld))) = 0
  /\ isRestarting
       (state_of (checking_resume (Finite 100) (app triggeredWorld))) = false.
Proof.
  destruct (C9_samples_while_restarting (app triggeredWorld) (Finite 100)
              eq_refl) as (_ & Hgood & Hzero & _).
  split; [reflexivity | split].
  - apply Hzero. reflexivity.
  - destruct (Hgood eq_refl) as [H _]. exact H.
Defined.

(** C9, the claim as stated fails. Under a threshold of 5000 ms and a
    ceiling of 4, probes that overlap leave the flag set with the counter
    at 2 when the daily timer fires during a pending device call; the good
    sample that follows finds [restarting] true and lowers the counter to
    1. *)
Lemma C9_good_sample_while_restarting_decrements :
  isRestarting (app secondRestartWorld) = true
  /\ currentBadCount (app secondRestartWorld) = 2
  /\ currentBadCount (app (step Date.utc secondRestartWorld lateGoodSample)) = 1
  /\ observe Date.utc (fun w => (currentBadCount (app w), isRestarting (app w)))
             dailyWorld (overlappingProbes ++ [lateGoodSample])
     = [(0, false); (0, false); (0, false); (0, false); (0, false);
        (2, false); (0, true); (0, false); (2, false); (2, true);
        (1, false)].
Proof. repeat split; vm_compute; reflexivity. Qed.

(** C4. From a state that is not restarting, [restartModem] sets the flag
    and calls the device. When the call is rejected the flag is cleared in
    the very task that delivers the rejection, and polling is resumed; when
    it resolves the flag is left as it is, and polling is resumed. A flag
    that is still set is cleared by a sample exactly when the sample is
    good. After the five bad samples of the default scenario, a login step
    that fails leaves the flag false and the timer armed; a restart that
    goes through leaves the flag true and the timer armed. *)
Theorem C4_restart_outcomes (this : App) :
  isRestarting this = false ->
  restartModem this
  = (Pending, set_isRestarting true this,
     [console_log Restarting; modemUtil_restart])
  /\ (forall (s : App) (e : ModemUtil.Error),
        isRestarting (state_of (restart_settled (inl e) s)) = false
        /\ checkingIntervalHandler (state_of (restart_settled (inl e) s))
           = Some TimeoutObject
        /\ effects_of (restart_settled (inl e) s)
           = console_error RestartFailed
             :: console_error (ErrorObject e)
             :: match checkingIntervalHandler s with
                | Some _ => []
                | None => [console_log CheckingStart;
                           setInterval (checkingInterval (config s))]
                end)
  /\ (forall s : App,
        isRestarting (state_of (restart_settled (inr tt) s)) = isRestarting s
        /\ checkingIntervalHandler (state_of (restart_settled (inr tt) s))
           = Some TimeoutObject
        /\ effects_of (restart_settled (inr tt) s)
           = match checkingIntervalHandler s with
             | Some _ => []
             | None => [console_log CheckingStart;
                        setInterval (checkingInterval (config s))]
             end)
  /\ (forall (s : App) (delay : Delay),
        isRestarting s = true ->
        isRestarting (state_of (checking_resume delay s))
        = gt delay (expectedDelay (config s)))
  /\ (let w := step Date.utc triggeredWorld loginFails in
      (isRestarting (app triggeredWorld), interval triggeredWorld,
       restarts triggeredWorld) = (true, false, 1%nat)
      /\ (isRestarting (app w), interval w, restarts w) = (false, true, 0%nat))
  /\ (let w := step Date.utc triggeredWorld restartDone in
      (isRestarting (app w), interval w, restarts w) = (true, true, 0%nat)).
Proof.
  intros Hflag.
  split; [ | split; [ | split; [ | split; [ | split ] ] ] ].
  - destruct this as [cfg mu d c h flag]. simpl in Hflag. subst flag.
    reflexivity.
  - intros [cfg mu d c h flag] e. run_task_tac.
    destruct h as [[]|]; repeat split.
  - intros [cfg mu d c h flag]. run_task_tac.
    destruct h as [[]|]; repeat split.
  - intros [cfg mu d c h flag] delay Hs. simpl in Hs. subst flag.
    run_task_tac. destruct (gt delay (expectedDelay cfg)); simpl;
      [reflexivity | destruct (0 <? c); reflexivity].
  - vm_compute. split; reflexivity.
  - vm_compute. reflexivity.
Qed.

(** C4 on the fresh program: [restartModem] sets the flag and calls the
    device. *)
Lemma C4_restart_outcomes_witness :
  isRestarting (app freshWorld) = false
  /\ isRestarting (state_of (restartModem (app freshWorld))) = true
  /\ effects_of (restartModem (app freshWorld))
     = [console_log Restarting; modemUtil_restart].
Proof.
  destruct (C4_restart_outcomes (app freshWorld) eq_refl) as [H _].
  split; [reflexivity | ]. rewrite H. split; reflexivity.
Defined.

End Tasks.

(** ** The daily schedule *)

Unset Implicit Arguments.

Section DailySchedule.

Import Date App.

(** A time built from fields in range gives those fields back. *)
Lemma fields_of_MakeDate (day h m s ms : Z) :
  0 <= h < 24 -> 0 <= m < 60 -> 0 <= s < 60 -> 0 <= ms < 1000 ->
  let t := MakeDate day (MakeTime h m s ms) in
  Day t = day /\ HourFromTime t = h /\ MinFromTime t = m /\ SecFromTime t = s
  /\ msFromTime t = ms /\ TimeWithinDay t = MakeTime h m s ms.
Proof.
  intros Hh Hm Hs Hms t. subst t.
  unfold Day, HourFromTime, MinFromTime, SecFromTime, msFromTime, TimeWithinDay,
    MakeDate, MakeTime, msPerDay, msPerHour, msPerMinute, msPerSecond.
  repeat split; Z.div_mod_to_equations; lia.
Qed.

Lemma field_ranges (t : Z) :
  0 <= HourFromTime t < 24 /\ 0 <= MinFromTime t < 60 /\ 0 <= SecFromTime t < 60 /\ 0 <= msFromTime t < 1000.
Proof.
  unfold HourFromTime, MinFromTime, SecFromTime, msFromTime, msPerSecond.
  repeat split; Z.div_mod_to_equations; lia.
Qed.

Lemma timeOfDay_range tza tv : 0 <= timeOfDay tza tv < msPerDay.
Proof.
  unfold timeOfDay. cbv zeta.
  pose proof (field_ranges (LocalTime tza tv)) as (Hh & Hm & Hs & _).
  unfold MakeTime, msPerDay, msPerHour, msPerMinute, msPerSecond. lia.
Qed.

Lemma TimeClip_ok (t : Z) : Z.abs t <= maxTimeValue -> TimeClip t = Some t.
Proof.
  intros H. unfold TimeClip. apply Z.leb_le in H. rewrite H. reflexivity.
Qed.

Section Zone.

Variable tza : Zone.
Hypothesis Hoff : offsetsWithinADay tza.

(** A local time within [k] days of the local time of an ordinary clock
    reading converts to a time value in range. *)
Lemma UTC_in_range (now x : Z) :
  ordinaryClock now ->
  Z.abs (x - LocalTime tza now) <= 3 * msPerDay ->
  Z.abs (UTC tza x) <= maxTimeValue.
Proof.
  unfold ordinaryClock, UTC, LocalTime. intros Hnow Hx.
  pose proof (Hoff now true) as H1. pose proof (Hoff x false) as H2.
  unfold msPerDay, maxTimeValue in *. lia.
Qed.

(** One setter on a date whose local time is [L], when the local time it
    builds lies on the same local day. *)
Lemma setField_same_day (mk : Z -> Z -> Z) (x now tv L : Z) :
  ordinaryClock now ->
  Day L = Day (LocalTime tza now) ->
  LocalTime tza tv = L ->
  Day (MakeDate (Day L) (mk x L)) = Day L ->
  setField tza mk (Some x) (mkDate (Some tv))
  = mkDate (Some (UTC tza (MakeDate (Day L) (mk x L)))).
Proof.
  intros Hnow Hday HL Hsame. unfold setField.
  cbn [getTime]. cbv beta iota zeta. rewrite HL.
  rewrite TimeClip_ok; [reflexivity | ].
  apply (UTC_in_range now _ Hnow).
  unfold Day, msPerDay in *. Z.div_mod_to_equations. lia.
Qed.

(** The four setters in a row, with fields in range, on a local day without
    a gap: today's date at the given time of day. *)
Lemma set_time_of_day (now h m s : Z) :
  ordinaryClock now ->
  noGap tza (Day (LocalTime tza now)) ->
  0 <= h < 24 -> 0 <= m < 60 -> 0 <= s < 60 ->
  setMilliseconds tza (Some 0)
    (setSeconds tza (Some s)
       (setMinutes tza (Some m)
          (setHours tza (Some h) (mkDate (Some now)))))
  = mkDate (Some (UTC tza (MakeDate (Day (LocalTime tza now))
                                    (MakeTime h m s 0)))).
Proof.
  intros Hnow Hgap Hh Hm Hs.
  set (L := LocalTime tza now).
  pose proof (field_ranges L) as (_ & HLm & HLs & HLms).
  assert (H0 : 0 <= 0 < 1000) by lia.
  unfold setHours, setMinutes, setSeconds, setMilliseconds.
  destruct (fields_of_MakeDate (Day L) _ _ _ _ Hh HLm HLs HLms) as (E1 & E2 & E3 & E4 & E5 & _).
  destruct (fields_of_MakeDate (Day L) _ _ _ _ Hh Hm HLs HLms) as (F1 & F2 & F3 & F4 & F5 & _).
  destruct (fields_of_MakeDate (Day L) _ _ _ _ Hh Hm Hs HLms) as (G1 & G2 & G3 & G4 & G5 & _).
  destruct (fields_of_MakeDate (Day L) _ _ _ _ Hh Hm Hs H0) as (K1 & _).
  rewrite (setField_same_day _ h now now L Hnow eq_refl eq_refl); [ | exact E1 ].
  cbv beta.
  set (X1 := MakeDate (Day L) (MakeTime h (MinFromTime L) (SecFromTime L) (msFromTime L))) in *.
  rewrite (setField_same_day _ m now (UTC tza X1) X1 Hnow E1 (Hgap X1 E1));
    cbv beta; rewrite ?E1, ?E2, ?E4, ?E5; [ | exact F1 ].
  set (X2 := MakeDate (Day L) (MakeTime h m (SecFromTime L) (msFromTime L))) in *.
  rewrite (setField_same_day _ s now (UTC tza X2) X2 Hnow F1 (Hgap X2 F1));
    cbv beta; rewrite ?F1, ?F2, ?F3, ?F5; [ | exact G1 ].
  set (X3 := MakeDate (Day L) (MakeTime h m s (msFromTime L))) in *.
  rewrite (setField_same_day _ 0 now (UTC tza X3) X3 Hnow G1 (Hgap X3 G1));
    cbv beta; rewrite ?G1, ?G2, ?G3, ?G4; [ reflexivity | exact K1 ].
Qed.

(** The instant computed, in closed form: the instant of today's
    occurrence of the configured time of day, or of tomorrow's when
    today's is not after the clock. *)
Lemma nextRestartTime_value (tv now : Z) :
  ordinaryClock now ->
  noGap tza (Day (LocalTime tza now)) ->
  let today :=
    MakeDate (Day (LocalTime tza now)) (timeOfDay tza tv) in
  nextRestartTime tza (mkDate (Some tv)) now
  = mkDate (Some (if UTC tza today <=? now
                  then UTC tza (today + msPerDay) else UTC tza today)).
Proof.
  intros Hnow Hgap today.
  pose proof (field_ranges (LocalTime tza tv)) as (Hh & Hm & Hs & _).
  assert (Hchain :
    setMilliseconds tza (Some 0)
      (setSeconds tza (Some (SecFromTime (LocalTime tza tv)))
         (setMinutes tza (Some (MinFromTime (LocalTime tza tv)))
            (setHours tza (Some (HourFromTime (LocalTime tza tv)))
               (mkDate (Some now)))))
    = mkDate (Some (UTC tza today))).
  { apply (set_time_of_day now _ _ _ Hnow Hgap Hh Hm Hs). }
  unfold nextRestartTime, getHours, getMinutes, getSeconds, getField.
  cbv zeta. simpl option_map. rewrite !Hchain.
  unfold le_number. cbn [getTime]. cbv beta iota.
  destruct (UTC tza today <=? now); [ | reflexivity ].
  assert (H0 : 0 <= 0 < 1000) by lia.
  destruct (fields_of_MakeDate (Day (LocalTime tza now)) _ _ _ _ Hh Hm Hs H0)
    as (K1 & _ & _ & _ & _ & K6).
  fold (timeOfDay tza tv) in K1, K6. fold today in K1, K6.
  unfold setDate_getDate_plus. cbn [getTime]. cbv beta iota zeta.
  rewrite (Hgap today K1), K1, K6.
  replace (MakeDate (Day (LocalTime tza now) + 1) (timeOfDay tza tv))
    with (today + msPerDay) by (unfold today, MakeDate; lia).
  rewrite TimeClip_ok; [reflexivity | ].
  apply (UTC_in_range now _ Hnow).
  pose proof (timeOfDay_range tza tv) as Hr.
  unfold today, MakeDate, Day, msPerDay in *. Z.div_mod_to_equations. lia.
Qed.

(** The instant computed lies strictly after the clock, at most four days
    ahead, and is shown by the wall clock as the configured time of
    day of today, or of tomorrow when the instant of today's occurrence is
    not after the clock. *)
Lemma next_occurrence (tv now : Z) :
  ordinaryClock now ->
  noGap tza (Day (LocalTime tza now)) ->
  noGap tza (Day (LocalTime tza now) + 1) ->
  dateNotAhead tza now ->
  let today := MakeDate (Day (LocalTime tza now)) (timeOfDay tza tv) in
  exists next : Z,
    getTime (nextRestartTime tza (mkDate (Some tv)) now) = Some next
    /\ now < next <= now + 4 * msPerDay
    /\ TimeWithinDay (LocalTime tza next) = timeOfDay tza tv
    /\ Day (LocalTime tza next)
       = Day (LocalTime tza now)
         + (if UTC tza today <=? now then 1 else 0).
Proof.
  intros Hnow Hgap0 Hgap1 Hahead today.
  rewrite (nextRestartTime_value tv now Hnow Hgap0). cbv zeta. fold today.
  pose proof (timeOfDay_range tza tv) as Hr.
  assert (Hd0 : Day today = Day (LocalTime tza now)
                /\ TimeWithinDay today = timeOfDay tza tv).
  { unfold today, MakeDate, Day, TimeWithinDay, msPerDay in *.
    split; Z.div_mod_to_equations; lia. }
  assert (Hd1 : Day (today + msPerDay) = Day (LocalTime tza now) + 1
                /\ TimeWithinDay (today + msPerDay) = timeOfDay tza tv).
  { unfold today, MakeDate, Day, TimeWithinDay, msPerDay in *.
    split; Z.div_mod_to_equations; lia. }
  destruct Hd0 as [Hd0 Ht0]. destruct Hd1 as [Hd1 Ht1].
  pose proof (Hgap0 today Hd0) as Hs0.
  pose proof (Hgap1 (today + msPerDay) Hd1) as Hs1.
  unfold shown in Hs0, Hs1.
  assert (Hnear : forall x, Z.abs (x - LocalTime tza now) <= 2 * msPerDay ->
                            Z.abs (UTC tza x - now) <= 4 * msPerDay).
  { intros x Hx. unfold UTC, LocalTime in *.
    pose proof (Hoff now true). pose proof (Hoff x false).
    unfold msPerDay in *. lia. }
  assert (Hn0 : Z.abs (today - LocalTime tza now) <= 2 * msPerDay).
  { unfold today, MakeDate, Day, msPerDay in *. Z.div_mod_to_equations. lia. }
  assert (Hn1 : Z.abs (today + msPerDay - LocalTime tza now) <= 2 * msPerDay).
  { unfold today, MakeDate, Day, msPerDay in *. Z.div_mod_to_equations. lia. }
  destruct (UTC tza today <=? now) eqn:E.
  - exists (UTC tza (today + msPerDay)). cbn [getTime].
    split; [reflexivity | ]. rewrite Hs1, Ht1, Hd1.
    split; [ | split; reflexivity ].
    pose proof (Hnear _ Hn1) as Hb. split; [ | lia ].
    destruct (Z_lt_le_dec now (UTC tza (today + msPerDay))) as [Hlt | Hle];
      [exact Hlt | ].
    pose proof (Hahead _ Hle) as Hbad. rewrite Hs1, Hd1 in Hbad. lia.
  - exists (UTC tza today). cbn [getTime].
    split; [reflexivity | ]. rewrite Hs0, Ht0, Hd0.
    split; [ | split; [reflexivity | lia] ].
    apply Z.leb_gt in E. pose proof (Hnear _ Hn0) as Hb. lia.
Qed.

End Zone.

(** The two zones of the scenarios meet what the theorems ask of a zone:
    UTC trivially, New York because putting the clocks back skips no local
    time and does not cross midnight. *)
Lemma utc_is_civil (now : Z) :
  offsetsWithinADay utc
  /\ (forall day, noGap utc day)
  /\ dateNotAhead utc now.
Proof.
  unfold offsetsWithinADay, noGap, shown, dateNotAhead, LocalTime, UTC, utc.
  repeat split; intros; unfold Day, msPerDay in *; simpl;
    try (Z.div_mod_to_equations; lia); lia.
Qed.

Lemma newYork_is_civil (now : Z) :
  offsetsWithinADay newYorkAutumn2024
  /\ (forall day, noGap newYorkAutumn2024 day)
  /\ dateNotAhead newYorkAutumn2024 now.
Proof.
  unfold offsetsWithinADay, noGap, shown, dateNotAhead, LocalTime, UTC,
    newYorkAutumn2024, fallBackInstant, msPerDay, msPerHour.
  split; [ | split ].
  - intros t b. destruct b.
    + destruct (t <? 1730613600000); lia.
    + destruct (t + 4 * 3600000 <? 1730613600000); lia.
  - intros day x _.
    destruct (x + 4 * 3600000 <? 1730613600000) eqn:E.
    + replace (x - -4 * 3600000) with (x + 4 * 3600000) by lia.
      rewrite E. lia.
    + apply Z.ltb_ge in E.
      destruct (x - -5 * 3600000 <? 1730613600000) eqn:F;
        [apply Z.ltb_lt in F; lia | lia].
  - intros t Ht. unfold Day, msPerDay.
    destruct (t <? 1730613600000) eqn:E; destruct (now <? 1730613600000) eqn:F;
      try apply Z.ltb_lt in E; try apply Z.ltb_ge in E;
      try apply Z.ltb_lt in F; try apply Z.ltb_ge in F;
      Z.div_mod_to_equations; lia.
Qed.



End DailySchedule.

Set Implicit Arguments.

(** ** The event loop: runs of the whole program *)

Section EventLoop.

Import Date App Scenario.

Ltac run_task_tac :=
  unfold daily_callback, start_callback, restart_settled, checking_resume,
    checking_callback, onBadChecked, then_startChecking,
    registerRestartEveryDay, stopChecking, restartModem, restartModem_resume,
    startChecking, checking, when, bind, get, modify, emit, ret,
    state_of, effects_of, value_of,
    set_currentBadCount, set_isRestarting, set_checkingIntervalHandler;
  simpl.

Variable tza : Date.Zone.

Lemma deviceCalls_app (l1 l2 : list Effect) :
  deviceCalls (l1 ++ l2) = (deviceCalls l1 + deviceCalls l2)%nat.
Proof.
  induction l1 as [|e l1 IH]; simpl; [reflexivity | ].
  destruct e; simpl; rewrite IH; reflexivity.
Qed.

(** The runtime's bookkeeping of a list of effects. *)
Lemma perform_fold (now : Z) (out : list Effect) (w : World) :
  let w' := fold_left (perform now) out w in
  app w' = app w
  /\ output w' = output w ++ out
  /\ restarts w' = (restarts w + deviceCalls out)%nat
  /\ timeouts w' = timeouts w ++ armed now out.
Proof.
  revert w. induction out as [|e out IH]; intros w; simpl.
  - rewrite !app_nil_r, Nat.add_0_r. auto.
  - destruct (IH (perform now w e)) as (Ha & Ho & Hr & Ht).
    rewrite Ha, Ho, Hr, Ht.
    destruct e; simpl; rewrite <- ?app_assoc; simpl;
      repeat split; try reflexivity; lia.
Qed.

Lemma run_task_spec (now : Z) (t : Task unit) (w : World) :
  let w' := run_task now t w in
  app w' = state_of (t (app w))
  /\ output w' = output w ++ effects_of (t (app w))
  /\ restarts w' = (restarts w + deviceCalls (effects_of (t (app w))))%nat
  /\ timeouts w' = timeouts w ++ armed now (effects_of (t (app w))).
Proof.
  unfold run_task, state_of, effects_of.
  destruct (t (app w)) as [[u a] out]. simpl.
  apply (perform_fold now out
           (mkWorld a (interval w) (probes w) (restarts w) (timeouts w) (output w))).
Qed.

(** What starting a task consumes. *)
Lemma task_of_cases (w : World) (ev : Event) (w1 : World) (t : Task unit) :
  task_of tza w ev = Some (w1, t) ->
  program_task tza (at_ ev) t
  /\ app w1 = app w /\ output w1 = output w
  /\ (restarts w1 <= restarts w)%nat.
Proof.
  unfold task_of. destruct ev as [now [ | i ok | r | i ]]; simpl.
  - destruct (interval w); intros H; inversion H; subst.
    repeat split; auto. constructor.
  - destruct (nth_error (probes w) i); intros H; inversion H; subst.
    repeat split; auto. constructor.
  - destruct (restarts w) eqn:E; intros H; inversion H; subst.
    simpl. repeat split; auto. constructor.
  - destruct (nth_error (timeouts w) i) as [[cb due]|]; [ | discriminate ].
    destruct (due <=? now); intros H; inversion H; subst.
    simpl. repeat split; auto. destruct cb; constructor.
Qed.

(** How one event may leave the fields (see [program_task_state]). *)
Lemma step_fields (w : World) (ev : Event) :
  exists c' h' f',
    app (step tza w ev)
    = mkApp (config (app w)) (modemUtil (app w)) (restartEveryDayDate (app w))
            c' h' f'
    /\ (c' = currentBadCount (app w)
        \/ c' = 0
        \/ (c' = currentBadCount (app w) + badIncrease (config (app w))
            /\ c' < maxBadCount (config (app w)))
        \/ (c' = currentBadCount (app w) - goodReduce (config (app w))
            /\ 0 < currentBadCount (app w))).
Proof.
  unfold step. destruct (task_of tza w ev) as [[w1 t]|] eqn:E.
  - destruct (task_of_cases w ev E) as (Ht & Ha & _).
    destruct (run_task_spec (at_ ev) t w1) as (Hs & _).
    rewrite Hs, Ha. apply (program_task_state (app w) Ht).
  - destruct (app w) as [cfg mu d c h flag]. simpl.
    do 3 eexists. split; [reflexivity | left; reflexivity].
Qed.

Lemma step_config (w : World) (ev : Event) :
  config (app (step tza w ev)) = config (app w).
Proof.
  destruct (step_fields w ev) as (c' & h' & f' & H & _). rewrite H. reflexivity.
Qed.

Lemma steps_cons (w : World) (ev : Event) (evs : list Event) :
  steps tza w (ev :: evs) = steps tza (step tza w ev) evs.
Proof. reflexivity. Qed.

(** A property of the fields that every event preserves holds along every
    run. *)
Lemma steps_invariant (P : App -> Prop) :
  (forall w ev, P (app w) -> P (app (step tza w ev))) ->
  forall evs w, P (app w) -> P (app (steps tza w evs)).
Proof.
  intros Hstep. induction evs as [|ev evs IH]; intros w Hw.
  - exact Hw.
  - rewrite steps_cons. apply IH. apply Hstep. exact Hw.
Qed.

(** [run] changes no field but the timer handle. *)
Lemma run_state (now : Z) (this : App) :
  exists h',
    state_of (run tza now this)
    = mkApp (config this) (modemUtil this) (restartEveryDayDate this)
            (currentBadCount this) h' (isRestarting this).
Proof.
  destruct this as [cfg mu d c h flag]. unfold run. run_task_tac.
  destruct (startDelay cfg) as [delay|]; simpl.
  - destruct (0 <? delay); simpl; [eexists; reflexivity | ].
    destruct h, d; simpl; eexists; reflexivity.
  - destruct h, d; simpl; eexists; reflexivity.
Qed.

(** The counter after booting is zero, and the configuration is the merged
    one. *)
Lemma boot_fields (file : Partial_IAppConfig) (now : Z) :
  config (app (boot tza file now)) = mergeConfig file
  /\ currentBadCount (app (boot tza file now)) = 0
  /\ isRestarting (app (boot tza file now)) = false.
Proof.
  unfold boot.
  destruct (run_task_spec now (run tza now)
              (mkWorld (constructor tza file now) false [] O [] [])) as (H & _).
  rewrite H. simpl app.
  destruct (run_state now (constructor tza file now)) as [h' Hrun].
  rewrite Hrun. repeat split.
Qed.

(** X13. Whatever happens, the counter stays under the ceiling, unless it
    is zero or below: a bad sample that reaches the ceiling resets it. *)
Theorem badScore_stays_under_ceiling (file : Partial_IAppConfig) (now : Z)
    (evs : list Event) :
  0 <= goodReduce (mergeConfig file) ->
  let this := app (steps tza (boot tza file now) evs) in
  currentBadCount this < maxBadCount (mergeConfig file)
  \/ currentBadCount this <= 0.
Proof.
  intros Hred this. subst this.
  destruct (boot_fields file now) as (Hcfg & Hzero & _).
  apply (steps_invariant
           (fun this => config this = mergeConfig file
                        /\ (currentBadCount this < maxBadCount (mergeConfig file)
                            \/ currentBadCount this <= 0))).
  - intros w ev [Hc Hi].
    destruct (step_fields w ev) as (c' & h' & f' & H & Hcases).
    rewrite H. cbn [currentBadCount config]. rewrite Hc in Hcases. split; [exact Hc | lia].
  - split; [exact Hcfg | lia].
Qed.

(** X14. With a [goodReduce] that divides [badIncrease] (1, by default),
    the counter is a multiple of it and never negative. *)
Theorem badScore_nonnegative_when_divisible (file : Partial_IAppConfig)
    (now : Z) (evs : list Event) :
  0 <= badIncrease (mergeConfig file) ->
  0 <= goodReduce (mergeConfig file) ->
  (goodReduce (mergeConfig file) | badIncrease (mergeConfig file)) ->
  0 <= currentBadCount (app (steps tza (boot tza file now) evs)).
Proof.
  intros Hinc Hred Hdiv.
  destruct (boot_fields file now) as (Hcfg & Hzero & _).
  apply (steps_invariant
           (fun this => config this = mergeConfig file
                        /\ 0 <= currentBadCount this
                        /\ (goodReduce (mergeConfig file) | currentBadCount this))).
  - intros w ev (Hc & Hpos & Hmul).
    destruct (step_fields w ev) as (c' & h' & f' & H & Hcases).
    rewrite H. cbn [currentBadCount config]. rewrite Hc in Hcases. split; [exact Hc | ].
    destruct Hcases as [-> | [-> | [[-> _] | [-> Hgt]]]].
    + auto.
    + split; [lia | apply Z.divide_0_r].
    + split; [lia | apply Z.divide_add_r; assumption].
    + split; [ | apply Z.divide_sub_r; [assumption | apply Z.divide_refl] ].
      destruct Hmul as [k Hk].
      assert (0 < k) by nia. nia.
  - rewrite Hzero. split; [exact Hcfg | split; [lia | apply Z.divide_0_r]].
Qed.

(** X15. In general the counter stays above the negated [goodReduce]. *)
Theorem badScore_lower_bound (file : Partial_IAppConfig) (now : Z)
    (evs : list Event) :
  0 <= badIncrease (mergeConfig file) ->
  0 <= goodReduce (mergeConfig file) ->
  Z.min 0 (1 - goodReduce (mergeConfig file))
  <= currentBadCount (app (steps tza (boot tza file now) evs)).
Proof.
  intros Hinc Hred.
  destruct (boot_fields file now) as (Hcfg & Hzero & _).
  apply (steps_invariant
           (fun this => config this = mergeConfig file
                        /\ Z.min 0 (1 - goodReduce (mergeConfig file))
                           <= currentBadCount this)).
  - intros w ev (Hc & Hlow).
    destruct (step_fields w ev) as (c' & h' & f' & H & Hcases).
    rewrite H. cbn [currentBadCount config]. rewrite Hc in Hcases. split; [exact Hc | lia].
  - split; [exact Hcfg | lia].
Qed.

(** C1. Under [badIncrease] 2 and [goodReduce] 3, one bad sample and one
    good sample leave the counter at 2 and then at -1: below zero, where
    the claim keeps it in the range from 0 to [maxBadCount]. *)
Theorem C1_badScore_goes_negative :
  observe Date.utc (fun w => currentBadCount (app w))
          (boot Date.utc (fileGoodReduce 3) 0) badThenGood
  = [0; 2; 2; -1]
  /\ config (app (boot Date.utc (fileGoodReduce 3) 0))
     = mkConfig "user" "000000" "192.168.1.1" None None 2000
                "https://www.baidu.com" 800 10 2 3 None None.
Proof. split; vm_compute; reflexivity. Qed.





(** What the daily task arms: one timer, for the instant computed from the
    configured date. *)
Lemma daily_callback_armed (now : Z) (this : App) (d : Date) :
  restartEveryDayDate this = Some d ->
  armed now (effects_of (daily_callback tza now this))
  = [(DailyCallback,
      now + timerDelay (sub_number (getTime (nextRestartTime tza d now))
                                   (Some now)))].
Proof.
  intros Hd. destruct this as [cfg mu d0 c h flag]. simpl in Hd. subst d0.
  run_task_tac. destruct h, flag; reflexivity.
Qed.

Lemma settled_arms_nothing (now : Z) (r : ModemUtil.Error + unit) (this : App) :
  armed now (effects_of (restart_settled r this)) = [].
Proof.
  destruct this as [cfg mu d c h flag]. run_task_tac.
  destruct r, h; reflexivity.
Qed.

(** C10. When the daily timer fires, whatever the fields hold (restarting
    or not, so also when the guard suppresses the attempt), the task arms
    exactly one new daily timer before any outcome of the restart is known,
    due strictly after the firing instant, and the configured date stays.
    With a valid configured date and a zone that is in order around the
    firing instant, the new timer is due at the next instant that the wall
    clock shows as the configured time of day; when the timer that fired
    was due at today's occurrence of that time, this is the occurrence of
    the following local day (a local day that may last 23 or 25 hours). A
    device call that settles later disarms nothing. *)
Theorem C10_daily_rearm (w : World) (i : nat) (now due : Z) (d : Date) :
  nth_error (timeouts w) i = Some (DailyCallback, due) ->
  due <= now ->
  restartEveryDayDate (app w) = Some d ->
  let w' := step tza w (mkEvent now (TimeoutFires i)) in
  let delay :=
    timerDelay (sub_number (getTime (nextRestartTime tza d now)) (Some now)) in
  timeouts w' = remove_nth i (timeouts w) ++ [(DailyCallback, now + delay)]
  /\ now < now + delay
  /\ restartEveryDayDate (app w') = Some d
  /\ (forall tv : Z,
        getTime d = Some tv ->
        offsetsWithinADay tza ->
        ordinaryClock now ->
        noGap tza (Day (LocalTime tza now)) ->
        noGap tza (Day (LocalTime tza now) + 1) ->
        dateNotAhead tza now ->
        let today := MakeDate (Day (LocalTime tza now)) (timeOfDay tza tv) in
        getTime (nextRestartTime tza d now) = Some (now + delay)
        /\ TimeWithinDay (LocalTime tza (now + delay)) = timeOfDay tza tv
        /\ Day (LocalTime tza (now + delay))
           = Day (LocalTime tza now)
             + (if UTC tza today <=? now then 1 else 0)
        /\ (due = UTC tza today ->
            Day (LocalTime tza (now + delay)) = Day (LocalTime tza now) + 1))
  /\ (forall (r : ModemUtil.Error + unit) (t : Z),
        timeouts (step tza w' (mkEvent t (RestartSettles r))) = timeouts w').
Proof.
  intros Hnth Hdue Hd w' delay.
  assert (Hstep : w' = run_task now (daily_callback tza now)
                    (mkWorld (app w) (interval w) (probes w) (restarts w)
                             (remove_nth i (timeouts w)) (output w))).
  { subst w'. unfold step, task_of. simpl. rewrite Hnth.
    destruct (due <=? now) eqn:E; [reflexivity | apply Z.leb_gt in E; lia]. }
  destruct (run_task_spec now (daily_callback tza now)
              (mkWorld (app w) (interval w) (probes w) (restarts w)
                       (remove_nth i (timeouts w)) (output w)))
    as (Happ & _ & _ & Htimers).
  rewrite <- Hstep in Happ, Htimers. simpl in Happ, Htimers.
  split; [ | split; [ | split; [ | split ] ] ].
  - rewrite Htimers, (daily_callback_armed now (app w) Hd). reflexivity.
  - assert (1 <= delay); [ | lia ].
    subst delay. unfold timerDelay.
    destruct (sub_number _ _) as [x|]; [ | lia ].
    destruct ((1 <=? x) && (x <=? 2147483647)) eqn:E; [ | lia ].
    apply andb_prop in E. destruct E as [E _]. apply Z.leb_le in E. lia.
  - rewrite Happ.
    destruct (program_task_state (app w) (task_daily tza now))
      as (c' & h' & f' & Hs & _).
    rewrite Hs. exact Hd.
  - intros tv Htv Hoff Hnow Hgap0 Hgap1 Hahead today.
    destruct d as [dtv]. simpl in Htv. subst dtv.
    destruct (next_occurrence tza Hoff tv now Hnow Hgap0 Hgap1 Hahead)
      as (next & Hnext & Hlt & Htod & Hday).
    assert (Hdelay : delay = next - now).
    { subst delay. rewrite Hnext. simpl. unfold timerDelay, msPerDay in *.
      destruct ((1 <=? next - now) && (next - now <=? 2147483647)) eqn:E;
        [reflexivity | ].
      apply andb_false_iff in E. destruct E as [E|E]; apply Z.leb_gt in E; lia. }
    rewrite Hdelay. replace (now + (next - now)) with next by lia.
    split; [exact Hnext | split; [exact Htod | split; [exact Hday | ] ] ].
    intros Hsame. rewrite Hday. fold today. rewrite <- Hsame.
    destruct (due <=? now) eqn:E; [reflexivity | apply Z.leb_gt in E; lia].
  - intros r t. unfold step, task_of. simpl.
    destruct (restarts w') as [|n]; [reflexivity | ].
    destruct (run_task_spec t (restart_settled r)
                (mkWorld (app w') (interval w') (probes w') n (timeouts w')
                         (output w'))) as (_ & _ & _ & Ht).
    rewrite Ht, settled_arms_nothing. simpl. apply app_nil_r.
Qed.

End EventLoop.



(** C10 in New York on 2 November 2024, the day before the clocks are put
    back. The program was started at 02:59:48 with a daily restart at
    03:00; the timer that fires at 03:00:00 is replaced by one due at 03:00
    on 3 November, 25 hours later. *)
Lemma C10_daily_rearm_witness :
  nth_error (App.timeouts Scenario.newYorkWorld) 0
  = Some (App.DailyCallback, 1730530800000)
  /\ 1730530800000 <= 1730530800000
  /\ App.restartEveryDayDate (App.app Scenario.newYorkWorld)
     = Some (Date.mkDate (Some 1730530800000))
  /\ App.timeouts (App.step Date.newYorkAutumn2024 Scenario.newYorkWorld
                            (Scenario.fires 1730530800000 0))
     = [(App.DailyCallback, 1730530800000 + 25 * Date.msPerHour)]
  /\ Date.Day (Date.LocalTime Date.newYorkAutumn2024
                              (1730530800000 + 25 * Date.msPerHour))
     = Date.Day (Date.LocalTime Date.newYorkAutumn2024 1730530800000) + 1.
Proof.
  split; [reflexivity | split; [lia | split; [reflexivity | ] ] ].
  destruct (@C10_daily_rearm Date.newYorkAutumn2024 Scenario.newYorkWorld
              0%nat 1730530800000 1730530800000
              (Date.mkDate (Some 1730530800000))
              eq_refl (Z.le_refl _) eq_refl)
    as (H & _ & _ & Hzone & _).
  split.
  - refine (eq_trans H _). vm_compute. reflexivity.
  - destruct (newYork_is_civil 1730530800000) as (Hoff & Hgap & Hahead).
    destruct (Hzone 1730530800000 eq_refl Hoff
                ltac:(unfold Date.ordinaryClock; vm_compute; discriminate)
                (Hgap _) (Hgap _) Hahead)
      as (_ & _ & _ & Hnext).
    refine (eq_trans _ (Hnext eq_refl)). vm_compute. reflexivity.
Defined.

(** * More of the program *)

Unset Implicit Arguments.

(** ** The two patterns on a served page *)

Section Patterns.

Import JsString.

Lemma stripPrefix_app (p s : string) : stripPrefix p (p ++ s)%string = Some s.
Proof.
  induction p as [|c p IH]; simpl; [reflexivity | ].
  rewrite Ascii.eqb_refl. exact IH.
Qed.

Lemma startsWith_app (p s : string) : startsWith p (p ++ s)%string = true.
Proof. unfold startsWith. rewrite stripPrefix_app. reflexivity. Qed.

(** A pattern without line terminators does not start where fewer than its
    length of characters are left on the line. *)
Lemma startsWith_short (suf x rest : string) :
  noLineTerminator suf = true ->
  atLineEnd rest = true ->
  (String.length x < String.length suf)%nat ->
  startsWith suf (x ++ rest)%string = false.
Proof.
  unfold startsWith. revert x.
  induction suf as [|c suf IH]; intros x Hsuf Hrest Hlen; simpl in *; [lia | ].
  apply andb_prop in Hsuf. destruct Hsuf as [Hc Hsuf].
  destruct x as [|d x]; simpl.
  - destruct rest as [|e rest]; [reflexivity | ]. simpl in Hrest.
    destruct (Ascii.eqb c e) eqn:E; [ | reflexivity ].
    apply Ascii.eqb_eq in E. subst e. rewrite Hrest in Hc. discriminate.
  - destruct (Ascii.eqb c d); [ | reflexivity ].
    apply IH; [assumption | assumption | simpl in Hlen; lia].
Qed.

Lemma greedyUntil_short (suf x rest : string) :
  noLineTerminator suf = true ->
  noLineTerminator x = true ->
  atLineEnd rest = true ->
  (String.length x < String.length suf)%nat ->
  greedyUntil suf (x ++ rest)%string = None.
Proof.
  intros Hsuf Hx Hrest. induction x as [|d x IH]; intros Hlen.
  - simpl. pose proof (startsWith_short suf "" rest Hsuf Hrest Hlen) as H0.
    simpl in H0. destruct rest as [|e rest]; simpl.
    + rewrite H0. reflexivity.
    + simpl in Hrest. rewrite Hrest, H0. reflexivity.
  - simpl in Hx. apply andb_prop in Hx. destruct Hx as [Hd Hx].
    apply negb_true_iff in Hd.
    pose proof (startsWith_short suf (String d x) rest Hsuf Hrest Hlen) as H0.
    simpl in *. rewrite Hd, H0, IH; [reflexivity | assumption | lia].
Qed.

(** The greedy group stops at the last occurrence of [suf] on the line:
    everything before it is captured, occurrences of [suf] included. *)
Lemma greedyUntil_line (suf body rest : string) :
  suf <> EmptyString ->
  noLineTerminator suf = true ->
  noLineTerminator body = true ->
  atLineEnd rest = true ->
  greedyUntil suf (body ++ suf ++ rest)%string = Some body.
Proof.
  intros Hne Hsuf Hbody Hrest. induction body as [|d body IH].
  - simpl. destruct suf as [|c suf]; [congruence | ].
    change ((String c suf ++ rest)%string) with (String c (suf ++ rest)%string).
    simpl greedyUntil.
    pose proof (startsWith_app (String c suf) rest) as Hs.
    change ((String c suf ++ rest)%string) with (String c (suf ++ rest)%string) in Hs.
    rewrite Hs.
    assert (Hc : isLineTerminator c = false).
    { simpl in Hsuf. apply andb_prop in Hsuf. destruct Hsuf as [Hc _].
      apply negb_true_iff in Hc. exact Hc. }
    rewrite Hc.
    rewrite (greedyUntil_short (String c suf) suf rest); auto.
    simpl in Hsuf. apply andb_prop in Hsuf. tauto.
  - simpl in Hbody. apply andb_prop in Hbody. destruct Hbody as [Hd Hbody].
    apply negb_true_iff in Hd. simpl. rewrite Hd, IH; auto.
Qed.

Lemma wholeLines_tail (c : ascii) (b : string) :
  wholeLines (String c b) = true ->
  isLineTerminator c = false ->
  b <> EmptyString /\ wholeLines b = true.
Proof.
  intros Hw Hc. destruct b as [|d b]; simpl in Hw.
  - congruence.
  - split; [discriminate | exact Hw].
Qed.

Lemma wholeLines_cons (c : ascii) (b : string) :
  wholeLines (String c b) = true -> wholeLines b = true.
Proof. destruct b; simpl; auto. Qed.

Lemma stripPrefix_whole (pre b z : string) :
  noLineTerminator pre = true ->
  wholeLines b = true -> b <> EmptyString ->
  match stripPrefix pre b with
  | Some r => stripPrefix pre (b ++ z)%string = Some (r ++ z)%string
              /\ wholeLines r = true /\ r <> EmptyString
  | None => stripPrefix pre (b ++ z)%string = None
  end.
Proof.
  revert b. induction pre as [|c pre IH]; intros b Hpre Hw Hne.
  - simpl. auto.
  - simpl in Hpre. apply andb_prop in Hpre. destruct Hpre as [Hc Hpre].
    apply negb_true_iff in Hc.
    destruct b as [|d b]; [congruence | ]. simpl.
    destruct (Ascii.eqb c d) eqn:E; [ | reflexivity ].
    apply Ascii.eqb_eq in E. subst d.
    destruct (wholeLines_tail _ _ Hw Hc) as [Hb Hwb].
    apply IH; assumption.
Qed.

Lemma startsWith_whole (suf b z : string) :
  noLineTerminator suf = true ->
  wholeLines b = true -> b <> EmptyString ->
  startsWith suf (b ++ z)%string = startsWith suf b.
Proof.
  intros Hs Hw Hne. unfold startsWith.
  pose proof (stripPrefix_whole suf b z Hs Hw Hne) as H.
  destruct (stripPrefix suf b) as [r|].
  - destruct H as [H _]. rewrite H. reflexivity.
  - rewrite H. reflexivity.
Qed.

Lemma greedyUntil_whole (suf b z : string) :
  noLineTerminator suf = true ->
  wholeLines b = true -> b <> EmptyString ->
  greedyUntil suf (b ++ z)%string = greedyUntil suf b.
Proof.
  intros Hs. induction b as [|c b IH]; intros Hw Hne; [congruence | ].
  pose proof (startsWith_whole suf (String c b) z Hs Hw Hne) as Hst.
  change ((String c b ++ z)%string) with (String c (b ++ z)%string) in *.
  simpl greedyUntil. rewrite Hst.
  destruct (isLineTerminator c) eqn:Hc; [reflexivity | ].
  destruct (wholeLines_tail _ _ Hw Hc) as [Hb Hwb].
  rewrite IH; auto.
Qed.

Lemma matchAt_whole (pre suf b z : string) :
  noLineTerminator pre = true -> noLineTerminator suf = true ->
  wholeLines b = true -> b <> EmptyString ->
  matchAt pre suf (b ++ z)%string = matchAt pre suf b.
Proof.
  intros Hp Hs Hw Hne. unfold matchAt.
  pose proof (stripPrefix_whole pre b z Hp Hw Hne) as H.
  destruct (stripPrefix pre b) as [r|].
  - destruct H as (H & Hwr & Hnr). rewrite H. apply greedyUntil_whole; auto.
  - rewrite H. reflexivity.
Qed.

(** Whole lines without a match before the text do not change the match. *)
Lemma matchCapture_skip (pre suf before z : string) :
  noLineTerminator pre = true -> noLineTerminator suf = true ->
  wholeLines before = true ->
  matchCapture pre suf before = None ->
  matchCapture pre suf (before ++ z)%string = matchCapture pre suf z.
Proof.
  intros Hp Hs. induction before as [|c b IH]; intros Hw Hnone.
  - reflexivity.
  - assert (Hne : String c b <> EmptyString) by discriminate.
    pose proof (matchAt_whole pre suf (String c b) z Hp Hs Hw Hne) as Hat.
    change ((String c b ++ z)%string) with (String c (b ++ z)%string) in *.
    simpl matchCapture in *. rewrite Hat.
    destruct (matchAt pre suf (String c b)); [discriminate | ].
    apply IH; [exact (wholeLines_cons _ _ Hw) | exact Hnone].
Qed.

Lemma matchCapture_line (pre suf before body rest : string) :
  suf <> EmptyString ->
  noLineTerminator pre = true -> noLineTerminator suf = true ->
  wholeLines before = true ->
  matchCapture pre suf before = None ->
  noLineTerminator body = true ->
  atLineEnd rest = true ->
  matchCapture pre suf (before ++ pre ++ body ++ suf ++ rest)%string = Some body.
Proof.
  intros Hne Hp Hs Hw Hnone Hbody Hrest.
  rewrite matchCapture_skip; auto.
  assert (Hat : matchAt pre suf (pre ++ body ++ suf ++ rest)%string = Some body).
  { unfold matchAt. rewrite stripPrefix_app. apply greedyUntil_line; auto. }
  destruct (pre ++ body ++ suf ++ rest)%string; simpl; rewrite Hat; reflexivity.
Qed.

End Patterns.

Section RestartRequests.

Import JsString ModemUtil Scenario.

Variable options : IModemUtilOptions.

Ltac unfold_restart :=
  unfold run_restart, restart, getFrmLoginToken, postLogin, getSessionToken,
    postRestart, bind, catch, fetch, response_text, matchGroup1, ret, throw.

Lemma isEmpty_app_pattern (before pre tail : string) :
  pre <> EmptyString -> isEmpty (before ++ pre ++ tail)%string = false.
Proof.
  intros Hne. destruct before; simpl; [ | reflexivity ].
  destruct pre; [congruence | reflexivity].
Qed.

(** X3. A token served on one line of the page is read back exactly. The page
    may hold whole lines before the assignment, as long as the pattern does
    not match on them, and anything after the end of its line; the token
    may hold any characters but line terminators, the closing
    quote-semicolon included, since the group is greedy. *)
Theorem token_read_back (before body rest : string) (net : Network)
    (sent : list Request) :
  wholeLines before = true ->
  noLineTerminator body = true ->
  atLineEnd rest = true ->
  (matchCapture loginTokenPre tokenSuf before = None ->
   net (List.length sent)
   = page (before ++ loginTokenPre ++ body ++ tokenSuf ++ rest) ->
   fst (getFrmLoginToken options net sent) = inr body)
  /\ (matchCapture sessionTokenPre tokenSuf before = None ->
      net (List.length sent)
      = page (before ++ sessionTokenPre ++ body ++ tokenSuf ++ rest) ->
      fst (getSessionToken options net sent) = inr body).
Proof.
  intros Hw Hbody Hrest. split; intros Hnone Hnet.
  - unfold getFrmLoginToken, bind, fetch, response_text, matchGroup1, ret, throw.
    rewrite Hnet. unfold page. cbn [text fst].
    rewrite isEmpty_app_pattern by discriminate.
    rewrite (matchCapture_line loginTokenPre tokenSuf before body rest);
      try assumption; try reflexivity. discriminate.
  - unfold getSessionToken, bind, fetch, response_text, matchGroup1, ret, throw.
    rewrite Hnet. unfold page. cbn [text fst].
    rewrite isEmpty_app_pattern by discriminate.
    rewrite (matchCapture_line sessionTokenPre tokenSuf before body rest);
      try assumption; try reflexivity. discriminate.
Qed.

(** X1. Whatever the modem answers, [restart()] sends between one and four
    requests, always the same steps in the same order (GET the login page,
    POST the login, GET the user page, POST the restart command), and
    every one of them to the stored protocol, address and port. *)
Theorem restart_steps_in_order (net : Network) :
  map (fun r => (req_method r, url_pathname (req_url r)))
      (snd (run_restart options net))
  = firstn (List.length (snd (run_restart options net)))
           [(GET, None); (POST, None);
            (GET, Some "/web/cmcc/gch/template_user.gch");
            (POST, Some "/web/cmcc/gch/getpage.gch")]
  /\ (1 <= List.length (snd (run_restart options net)) <= 4)%nat
  /\ Forall (fun r => url_protocol (req_url r) = protocol options
                      /\ url_hostname (req_url r) = ip options
                      /\ url_port (req_url r) = port options)
            (snd (run_restart options net)).
Proof.
  unfold_restart. simpl.
  destruct (net 0%nat) as [|[[html0|]]]; simpl;
    try solve [repeat split; try lia; repeat constructor].
  destruct (isEmpty html0); simpl;
    try solve [repeat split; try lia; repeat constructor].
  destruct (matchCapture loginTokenPre tokenSuf html0); simpl;
    try solve [repeat split; try lia; repeat constructor].
  destruct (net 1%nat); simpl;
    try solve [repeat split; try lia; repeat constructor].
  destruct (net 2%nat) as [|[[html2|]]]; simpl;
    try solve [repeat split; try lia; repeat constructor].
  destruct (isEmpty html2); simpl;
    try solve [repeat split; try lia; repeat constructor].
  destruct (matchCapture sessionTokenPre tokenSuf html2); simpl;
    try solve [repeat split; try lia; repeat constructor].
  destruct (net 3%nat); simpl; repeat split; try lia; repeat constructor.
Qed.

(** X2. When [restart()] resolves, the login carried the token captured from
    the first page together with the stored credentials, and the restart
    command carried the session token captured from the third page. *)
Theorem tokens_flow_into_requests (net : Network) :
  fst (run_restart options net) = inr tt ->
  exists html0 html2 tok1 tok2 r0 r2,
    net 0%nat = page html0
    /\ matchCapture loginTokenPre tokenSuf html0 = Some tok1
    /\ net 2%nat = page html2
    /\ matchCapture sessionTokenPre tokenSuf html2 = Some tok2
    /\ snd (run_restart options net)
       = [r0;
          mkRequest (baseUrl options) POST
            (Some [("frashnum", ""); ("action", "login");
                   ("Frm_Logintoken", tok1);
                   ("username", username options);
                   ("logincode", password options);
                   ("textpwd", ""); ("ieversion", "1")])
            None;
          r2;
          mkRequest
            (mkUrl (protocol options) (ip options) (port options)
                   (Some "/web/cmcc/gch/getpage.gch")
                   (Some [("pid", "1002");
                          ("nextpage",
                           "web/cmcc/gch/iot_advance_setting_t.gch")]))
            POST
            (Some [("IF_ACTION", "devrestart"); ("IF_ERRORSTR", "SUCC");
                   ("IF_ERRORPARAM", "SUCC");
                   ("IF_ERRORTYPE", "-1311313888"); ("flag", "1");
                   ("_SESSION_TOKEN_USER", tok2)])
            (Some 1000)]
    /\ req_body r0 = None /\ req_body r2 = None.
Proof.
  unfold_restart. unfold page. simpl.
  destruct (net 0%nat) as [|[[html0|]]]; simpl; try discriminate.
  destruct (isEmpty html0); simpl; try discriminate.
  destruct (matchCapture loginTokenPre tokenSuf html0) as [tok1|] eqn:E1;
    simpl; try discriminate.
  destruct (net 1%nat); simpl; try discriminate.
  destruct (net 2%nat) as [|[[html2|]]]; simpl; try discriminate.
  destruct (isEmpty html2); simpl; try discriminate.
  destruct (matchCapture sessionTokenPre tokenSuf html2) as [tok2|] eqn:E2;
    simpl; try discriminate.
  intros _. exists html0, html2, tok1, tok2.
  destruct (net 3%nat); simpl; do 2 eexists;
    repeat split; try reflexivity; assumption.
Qed.

End RestartRequests.

(** X3 on a served page: the token [a;b] is read back from the middle
    line. *)
Lemma token_read_back_witness :
  fst (ModemUtil.getFrmLoginToken Scenario.optionsPort8080
         (fun _ => Scenario.page Scenario.servedLoginPage) [])
  = inr "a;b".
Proof.
  refine (proj1 (token_read_back Scenario.optionsPort8080
                   ("<html><script>" ++ Scenario.LF) "a;b"
                   (Scenario.LF ++ "</script></html>")
                   (fun _ => Scenario.page Scenario.servedLoginPage) []
                   eq_refl eq_refl eq_refl) eq_refl eq_refl).
Defined.

(** X2 on the modem that answers every step. *)
Lemma tokens_flow_into_requests_witness :
  fst (ModemUtil.run_restart Scenario.optionsPort8080 Scenario.modemAnswers)
  = inr tt
  /\ exists r,
       nth_error (snd (ModemUtil.run_restart Scenario.optionsPort8080
                                             Scenario.modemAnswers)) 3
       = Some r
       /\ ModemUtil.req_timeout r = Some 1000.
Proof.
  split; [reflexivity | ].
  destruct (tokens_flow_into_requests Scenario.optionsPort8080
              Scenario.modemAnswers eq_refl)
    as (html0 & html2 & tok1 & tok2 & r0 & r2 & _ & _ & _ & _ & H & _).
  rewrite H. eexists. split; reflexivity.
Defined.


(** ** What [parseDate] makes of the configured time *)

Section ParsedTime.

Import Date App.

(** A setter leaves an invalid date invalid, and makes a date invalid when
    its argument is [NaN]. *)
Lemma setField_invalid (tza : Zone) (mk : Z -> Z -> Z) (v : option Z) :
  setField tza mk v (mkDate None) = mkDate None.
Proof. reflexivity. Qed.

Lemma setField_NaN (tza : Zone) (mk : Z -> Z -> Z) (d : Date) :
  setField tza mk None d = mkDate None.
Proof. destruct d as [[tv|]]; reflexivity. Qed.

(** X4. When the first three colon-separated parts parse to an hour below
    24 and a minute and a second below 60 (the second being 0 when there is
    no third part; further parts are ignored), and the zone is in order on
    the local day of [now], [parseDate] gives that local day at that hour,
    minute and second, milliseconds zero. The date is invalid when the hour
    or the minute does not parse, when there is no minute part, or when a
    third part is there and does not parse. In UTC: fields out of range
    carry over (25:00 is 01:00 tomorrow), and a field so large that the
    time value leaves the range of [Date] gives an invalid date. *)
Theorem parseDate_result (tza : Zone) (time : string) (now : Z) :
  let parts := map JsString.parseInt (JsString.split ":" time) in
  (forall h m s : Z,
     nth_error parts 0 = Some (Some h) ->
     nth_error parts 1 = Some (Some m) ->
     nth_error parts 2 = Some (Some s)
     \/ (nth_error parts 2 = None /\ s = 0) ->
     0 <= h < 24 -> 0 <= m < 60 -> 0 <= s < 60 ->
     offsetsWithinADay tza ->
     ordinaryClock now ->
     noGap tza (Day (LocalTime tza now)) ->
     parseDate tza time now
     = mkDate (Some (UTC tza (MakeDate (Day (LocalTime tza now))
                                       (MakeTime h m s 0)))))
  /\ ((forall h : Z, nth_error parts 0 <> Some (Some h)) ->
      parseDate tza time now = mkDate None)
  /\ ((forall m : Z, nth_error parts 1 <> Some (Some m)) ->
      parseDate tza time now = mkDate None)
  /\ (nth_error parts 2 = Some None ->
      parseDate tza time now = mkDate None)
  /\ parseDate utc "7:5" 1000000000123
     = mkDate (Some (999993600000 + 7 * 3600000 + 5 * 60000))
  /\ parseDate utc "23:59:59" 1000000000123
     = mkDate (Some (999993600000 + 86399000))
  /\ parseDate utc "03:00:15:99" 1000000000123
     = mkDate (Some (999993600000 + 3 * 3600000 + 15000))
  /\ parseDate utc "25:00" 1000000000123
     = mkDate (Some (999993600000 + 86400000 + 3600000))
  /\ parseDate utc "3000000000:00" 1000000000123 = mkDate None
  /\ parseDate utc "3" 1000000000123 = mkDate None
  /\ parseDate utc "03:00:" 1000000000123 = mkDate None
  /\ parseDate utc "noon" 1000000000123 = mkDate None.
Proof.
  intros parts.
  split; [ | split; [ | split; [ | split ] ] ].
  - intros h m s H0 H1 H2 Hh Hm Hs Hoff Hnow Hgap.
    unfold parseDate. cbv zeta. fold parts. unfold element, toNumber.
    rewrite H0, H1.
    destruct H2 as [H2 | [H2 Hs0] ]; rewrite H2; [ | subst s ];
      apply (set_time_of_day tza Hoff now h m _ Hnow Hgap Hh Hm); lia.
  - intros H0. unfold parseDate. cbv zeta. fold parts.
    unfold element, toNumber, setHours, setMinutes, setSeconds, setMilliseconds.
    destruct (nth_error parts 0) as [[h|]|]; [exfalso; apply (H0 h); reflexivity | | ];
      rewrite setField_NaN, setField_invalid;
      destruct (nth_error parts 2); rewrite setField_invalid; reflexivity.
  - intros H1. unfold parseDate. cbv zeta. fold parts.
    unfold element, toNumber, setHours, setMinutes, setSeconds, setMilliseconds.
    destruct (nth_error parts 1) as [[m|]|]; [exfalso; apply (H1 m); reflexivity | | ];
      rewrite setField_NaN;
      destruct (nth_error parts 2); rewrite setField_invalid; reflexivity.
  - intros H2. unfold parseDate. cbv zeta. fold parts.
    unfold element, toNumber, setHours, setMinutes, setSeconds, setMilliseconds.
    rewrite H2, setField_NaN. reflexivity.
  - repeat split; vm_compute; reflexivity.
Qed.

End ParsedTime.

(** X4 in New York: 03:00 read at 12:26:40 on 1 November 2024 is 03:00 of
    that day, 07:00 UTC. *)
Lemma parseDate_result_witness :
  App.parseDate Date.newYorkAutumn2024 "03:00" 1730478400000
  = Date.mkDate (Some 1730444400000).
Proof.
  destruct (newYork_is_civil 1730478400000) as (Hoff & Hgap & _).
  destruct (parseDate_result Date.newYorkAutumn2024 "03:00" 1730478400000)
    as (H & _).
  refine (eq_trans
            (H 3 0 0 eq_refl eq_refl (or_intror (conj eq_refl eq_refl))
               ltac:(lia) ltac:(lia) ltac:(lia) Hoff
               ltac:(unfold Date.ordinaryClock; vm_compute; discriminate)
               (Hgap _)) _).
  vm_compute. reflexivity.
Defined.

(** ** Invariants of the whole run *)

Section Lifetime.

Import Date App Scenario.

Ltac run_task_tac :=
  unfold run, daily_callback, start_callback, restart_settled, checking_resume,
    checking_callback, onBadChecked, then_startChecking,
    registerRestartEveryDay, stopChecking, restartModem, restartModem_resume,
    startChecking, checking, when, bind, get, modify, emit, ret,
    state_of, effects_of, value_of,
    set_currentBadCount, set_isRestarting, set_checkingIntervalHandler;
  simpl.

Variable tza : Date.Zone.

(** The runtime's bookkeeping of the interval timer and of the probes. *)
Lemma perform_fold_polling (now : Z) (out : list Effect) (w : World) :
  interval (fold_left (perform now) out w) = pollingAfter (interval w) out
  /\ probes (fold_left (perform now) out w) = probes w ++ started out.
Proof.
  revert w. induction out as [|e out IH]; intros w; simpl.
  - rewrite app_nil_r. auto.
  - destruct (IH (perform now w e)) as (Hi & Hp). rewrite Hi, Hp.
    destruct e; simpl; rewrite <- ?app_assoc; auto.
Qed.

Lemma run_task_polling (now : Z) (t : Task unit) (w : World) :
  interval (run_task now t w) = pollingAfter (interval w) (effects_of (t (app w)))
  /\ probes (run_task now t w) = probes w ++ started (effects_of (t (app w))).
Proof.
  unfold run_task, effects_of. destruct (t (app w)) as [[u a] out]. simpl.
  apply (perform_fold_polling now out
           (mkWorld a (interval w) (probes w) (restarts w) (timeouts w) (output w))).
Qed.

Lemma intervalBalance_app (l1 l2 : list Effect) :
  intervalBalance (l1 ++ l2) = intervalBalance l1 + intervalBalance l2.
Proof.
  induction l1 as [|e l1 IH]; [reflexivity | ].
  destruct e; cbn [intervalBalance List.app]; rewrite IH; lia.
Qed.

Lemma task_of_starts (w : World) (ev : Event) (w1 : World) (t : Task unit) :
  task_of tza w ev = Some (w1, t) -> starts tza w ev w1 t.
Proof.
  unfold task_of. destruct ev as [now [ | i ok | r | i ]]; simpl.
  - destruct (interval w) eqn:E; intros H; inversion H; subst.
    apply starts_tick; [reflexivity | exact E].
  - destruct (nth_error (probes w) i) as [st|] eqn:E; intros H; inversion H; subst.
    eapply starts_probe; [reflexivity | exact E].
  - destruct (restarts w) as [|n] eqn:E; intros H; inversion H; subst.
    eapply starts_settled; [reflexivity | exact E].
  - destruct (nth_error (timeouts w) i) as [[cb due]|] eqn:E; [ | discriminate ].
    destruct (due <=? now) eqn:F; intros H; inversion H; subst.
    apply Z.leb_le in F.
    eapply starts_timer; [reflexivity | exact E | exact F].
Qed.

(** What every task does to the timer handle and how often it calls the
    device: the handle tells whether the interval timer is armed afterwards;
    [setInterval] and [clearInterval] are called as the handle changes; the
    device is called at most once, and then the flag goes from false to
    true. *)
Lemma program_task_polling (now : Z) (t : Task unit) (this : App) :
  program_task tza now t ->
  let out := effects_of (t this) in
  let this' := state_of (t this) in
  pollingAfter (isSome (checkingIntervalHandler this)) out
  = isSome (checkingIntervalHandler this')
  /\ intervalBalance out
     = Z.b2z (isSome (checkingIntervalHandler this'))
       - Z.b2z (isSome (checkingIntervalHandler this))
  /\ (deviceCalls out = 0%nat
      \/ (deviceCalls out = 1%nat
          /\ isRestarting this = false /\ isRestarting this' = true))
  /\ (isSome (checkingIntervalHandler this') = true
      \/ deviceCalls out = 1%nat
      \/ isSome (checkingIntervalHandler this')
         = isSome (checkingIntervalHandler this)).
Proof.
  intros Ht. destruct this as [cfg mu d c h flag].
  destruct Ht as [ | delay | r | | ]; run_task_tac.
  - destruct flag, h; simpl; auto 10.
  - destruct (gt delay (expectedDelay cfg)); simpl.
    + destruct flag; simpl; [destruct h; simpl; auto 10 | ].
      destruct (maxBadCount cfg <=? c + badIncrease cfg); simpl;
        destruct h; simpl; auto 10.
    + destruct flag, h; simpl; destruct (0 <? c); simpl; auto 10.
  - destruct r, h; simpl; auto 10.
  - destruct h, flag, d; simpl; auto 10.
  - destruct h, d; simpl; auto 10.
Qed.


Lemma polling_tasks_arm_nothing (now : Z) (this : App) :
  (forall t0, armed now (effects_of (checking_callback t0 this)) = [])
  /\ (forall delay, armed now (effects_of (checking_resume delay this)) = [])
  /\ (forall r, armed now (effects_of (restart_settled r this)) = []
                /\ isSome (checkingIntervalHandler
                             (state_of (restart_settled r this))) = true).
Proof.
  destruct this as [cfg mu d c h flag].
  split; [intros t0 | split; [intros delay | intros r; split ] ].
  - run_task_tac. destruct flag; reflexivity.
  - run_task_tac. destruct (gt delay (expectedDelay cfg)); simpl.
    + destruct flag; simpl; [reflexivity | ].
      destruct (maxBadCount cfg <=? c + badIncrease cfg); simpl;
        [destruct h; reflexivity | reflexivity].
    + destruct flag; simpl; destruct (0 <? c); reflexivity.
  - run_task_tac. destruct r, h; reflexivity.
  - run_task_tac. destruct r, h; reflexivity.
Qed.

Lemma timer_tasks_arm_daily (now : Z) (this : App) :
  let daily :=
    match restartEveryDayDate this with
    | Some d =>
        [(DailyCallback,
          now + timerDelay (sub_number (getTime (nextRestartTime tza d now))
                                       (Some now)))]
    | None => []
    end in
  armed now (effects_of (daily_callback tza now this)) = daily
  /\ armed now (effects_of (start_callback tza now this)) = daily
  /\ isSome (checkingIntervalHandler (state_of (start_callback tza now this)))
     = true.
Proof.
  destruct this as [cfg mu d c h flag]. run_task_tac.
  repeat split; destruct h, flag, d; reflexivity.
Qed.

Lemma singleton_nth {A} (x y : A) (i : nat) :
  nth_error [x] i = Some y -> i = O /\ y = x.
Proof.
  destruct i as [|i]; simpl.
  - intros H. inversion H. auto.
  - destruct i; discriminate.
Qed.

Lemma orderly_step (w : World) (ev : Event) :
  orderly w -> orderly (step tza w ev).
Proof.
  intros (Hsync & Hbal & Hphase). unfold step.
  destruct (task_of tza w ev) as [[w1 t]|] eqn:E;
    [ | exact (conj Hsync (conj Hbal Hphase)) ].
  destruct (@task_of_cases tza w ev w1 t E) as (Ht & Happ & Hout & _).
  pose proof (task_of_starts w ev w1 t E) as Hst.
  destruct (@run_task_spec (at_ ev) t w1) as (Ha' & Ho' & Hr' & Ht').
  destruct (run_task_polling (at_ ev) t w1) as (Hi' & Hp').
  destruct (program_task_polling (at_ ev) t (app w) Ht)
    as (Hpoll & Hb & Hcalls & Hresume).
  destruct (@program_task_state tza (at_ ev) t (app w) Ht)
    as (c' & h' & f' & Hfields & _).
  assert (Hint1 : interval w1 = interval w) by (destruct Hst; reflexivity).
  rewrite Happ in *.
  assert (Hsync' : interval (run_task (at_ ev) t w1)
                   = isSome (checkingIntervalHandler (app (run_task (at_ ev) t w1)))).
  { rewrite Hi', Ha', Hint1, Hsync. exact Hpoll. }
  split; [exact Hsync' | split].
  - rewrite Ho', Hout, intervalBalance_app, Hbal, Hb, Hsync', Ha', Hsync. lia.
  - assert (Hdate : restartEveryDayDate (app (run_task (at_ ev) t w1))
                    = restartEveryDayDate (app w)).
    { rewrite Ha', Hfields. reflexivity. }
    rewrite Hdate. rewrite Hsync', Ha'.
    destruct (polling_tasks_arm_nothing (at_ ev) (app w)) as (Acb & Ares & Aset).
    destruct (timer_tasks_arm_daily (at_ ev) (app w)) as (Adaily & Astart & Pstart).
    destruct Hphase as [(due0 & Htim & Hoff & Hnone & Hprobes) | (Hlive & Htim)].
    + (* the start timer is still pending: only it can fire *)
      destruct Hst as [Hw Hon | i ok st Hw Hnth | r n Hw Hres | i cb due Hw Hnth Hdue].
      * congruence.
      * rewrite Hprobes in Hnth. destruct i; discriminate.
      * congruence.
      * rewrite Htim in Hnth. apply singleton_nth in Hnth.
        destruct Hnth as [-> Hcb]. inversion Hcb; subst cb due.
        right. split; [left; exact Pstart | ].
        rewrite Ht'. simpl timeouts. rewrite Htim. simpl remove_nth.
        rewrite Astart.
        destruct (restartEveryDayDate (app w)); [eexists | ]; reflexivity.
    + right.
      destruct Hst as [Hw Hon | i ok st Hw Hnth | r n Hw Hres | i cb due Hw Hnth Hdue].
      * split.
        -- rewrite Hr'. destruct Hresume as [H | [H | H]];
             [left; exact H | right; lia | ].
           rewrite H, <- Hsync. destruct Hlive; [left; assumption | right; lia].
        -- rewrite Ht', Acb, app_nil_r. exact Htim.
      * split.
        -- rewrite Hr'. simpl restarts. destruct Hresume as [H | [H | H]];
             [left; exact H | right; lia | ].
           rewrite H, <- Hsync. destruct Hlive; [left; assumption | right; lia].
        -- rewrite Ht', Ares, app_nil_r. exact Htim.
      * split.
        -- left. apply Aset.
        -- rewrite Ht'. destruct (Aset r) as [-> _]. rewrite app_nil_r. exact Htim.
      * destruct (restartEveryDayDate (app w)) as [d|] eqn:Hd.
        -- destruct Htim as [due0 Htim]. rewrite Htim in Hnth.
           apply singleton_nth in Hnth. destruct Hnth as [-> Hcb].
           inversion Hcb; subst cb due.
           split.
           ++ rewrite Hr'. simpl restarts. destruct Hresume as [H | [H | H]];
                [left; exact H | right; lia | ].
              rewrite H, <- Hsync. destruct Hlive; [left; assumption | right; lia].
           ++ rewrite Ht'. simpl timeouts. rewrite Htim. simpl remove_nth.
              rewrite Adaily. eexists. reflexivity.
        -- rewrite Htim in Hnth. destruct i; discriminate.
Qed.


(** [run] either arms the start timer and does nothing else, or is the
    start callback itself. *)
Lemma run_cases (now : Z) (this : App) :
  (exists d, startDelay (config this) = Some d /\ 0 < d
             /\ run tza now this = (tt, this, [setTimeout StartCallback (Some d)]))
  \/ ((startDelay (config this) = None
       \/ exists d, startDelay (config this) = Some d /\ d <= 0)
      /\ run tza now this = start_callback tza now this).
Proof.
  destruct this as [cfg mu dt c h flag]. unfold run, bind, get. simpl.
  destruct (startDelay cfg) as [d|] eqn:E.
  - destruct (0 <? d) eqn:F.
    + left. exists d. apply Z.ltb_lt in F.
      split; [reflexivity | split; [exact F | reflexivity] ].
    + right. apply Z.ltb_ge in F. split; [right; exists d; auto | ].
      destruct (start_callback tza now _) as [[u a] out]. simpl.
      destruct u. reflexivity.
  - right. split; [left; reflexivity | ].
    destruct (start_callback tza now _) as [[u a] out]. simpl.
    destruct u. reflexivity.
Qed.

Lemma orderly_boot (file : Partial_IAppConfig) (now : Z) :
  orderly (boot tza file now).
Proof.
  unfold boot.
  set (this := constructor tza file now).
  assert (Hh : checkingIntervalHandler this = None) by reflexivity.
  clearbody this.
  set (w0 := mkWorld this false [] O [] []).
  destruct (@run_task_spec now (run tza now) w0) as (Ha & Ho & Hr & Ht).
  destruct (run_task_polling now (run tza now) w0) as (Hi & Hp).
  unfold orderly. rewrite Ha, Ho, Hr, Ht, Hi, Hp. simpl app. simpl interval.
  simpl output. simpl restarts. simpl timeouts. simpl probes.
  destruct (run_cases now this) as [(d & Hd & Hpos & Hrun) | (_ & Hrun)];
    rewrite Hrun.
  - unfold state_of, effects_of. simpl. rewrite Hh.
    split; [reflexivity | split; [reflexivity | ] ].
    left. eexists. repeat split.
  - destruct (program_task_polling now _ this (task_start tza now))
      as (Hpoll & Hb & _ & _).
    destruct (timer_tasks_arm_daily now this) as (_ & Astart & Pstart).
    destruct (@program_task_state tza now _ this (task_start tza now))
      as (c' & h' & f' & Hfields & _).
    rewrite Hh in Hpoll, Hb. simpl in Hpoll, Hb.
    rewrite Hpoll, Pstart. rewrite !app_nil_l.
    split; [reflexivity | split; [rewrite Hb, Pstart; reflexivity | ] ].
    right. split; [left; reflexivity | ].
    rewrite Astart, Hfields. simpl restartEveryDayDate.
    destruct (restartEveryDayDate this); [eexists | ]; reflexivity.
Qed.

Lemma orderly_steps (evs : list Event) (w : World) :
  orderly w -> orderly (steps tza w evs).
Proof.
  revert w. induction evs as [|ev evs IH]; intros w Hw; [exact Hw | ].
  apply (IH (step tza w ev)). apply orderly_step. exact Hw.
Qed.


(** X12. The configuration, the restarter's options and the configured
    daily date are those of the constructor for the whole run: no event
    changes them. *)
Theorem fields_never_change (file : Partial_IAppConfig) (now : Z) (evs : list Event) :
  let this := app (steps tza (boot tza file now) evs) in
  config this = config (constructor tza file now)
  /\ modemUtil this = modemUtil (constructor tza file now)
  /\ restartEveryDayDate this = restartEveryDayDate (constructor tza file now).
Proof.
  apply (@steps_invariant tza
           (fun this => config this = config (constructor tza file now)
                        /\ modemUtil this = modemUtil (constructor tza file now)
                        /\ restartEveryDayDate this
                           = restartEveryDayDate (constructor tza file now))).
  - intros w ev H.
    destruct (@step_fields tza w ev) as (c' & h' & f' & Hf & _).
    rewrite Hf. exact H.
  - unfold boot.
    destruct (@run_task_spec now (run tza now)
                (mkWorld (constructor tza file now) false [] O [] []))
      as (Ha & _).
    rewrite Ha. simpl app.
    destruct (@run_state tza now (constructor tza file now)) as [h' Hrun].
    rewrite Hrun. repeat split.
Qed.

(** X7. The handle field tells whether the interval timer is armed, and
    [setInterval] has been called exactly once more than [clearInterval]
    when it is, exactly as often when it is not: two interval timers never
    run at once, and a timer is never cleared twice. *)
Theorem handle_tracks_timer (file : Partial_IAppConfig) (now : Z)
    (evs : list Event) :
  let w := steps tza (boot tza file now) evs in
  interval w = isSome (checkingIntervalHandler (app w))
  /\ intervalBalance (output w) = Z.b2z (interval w).
Proof.
  destruct (orderly_steps evs _ (orderly_boot file now)) as (H1 & H2 & _).
  split; assumption.
Qed.

(** X8. Once the program has started (no start timer pending), polling is
    active or a call of the device is pending: polling is never left
    stopped for good unless a device call never settles. *)
Theorem polling_never_stalls (file : Partial_IAppConfig) (now : Z)
    (evs : list Event) :
  let w := steps tza (boot tza file now) evs in
  (exists due, timeouts w = [(StartCallback, due)]
               /\ interval w = false /\ restarts w = O /\ probes w = [])
  \/ interval w = true
  \/ (0 < restarts w)%nat.
Proof.
  destruct (orderly_steps evs _ (orderly_boot file now)) as (_ & _ & H).
  destruct H as [H | [H _]]; [left; exact H | right; exact H].
Qed.

(** X9. At every moment exactly one one-shot timer is armed when a daily
    restart is configured (the start timer, then always one daily timer),
    and none after the start when it is not; a daily time that is missing
    or the empty string configures none. *)
Theorem one_timer_at_a_time (file : Partial_IAppConfig) (now : Z)
    (evs : list Event) :
  let w := steps tza (boot tza file now) evs in
  ((exists due, timeouts w = [(StartCallback, due)])
   \/ match restartEveryDayTime (mergeConfig file) with
      | Some time =>
          if ModemUtil.isEmpty time then timeouts w = []
          else exists due, timeouts w = [(DailyCallback, due)]
      | None => timeouts w = []
      end).
Proof.
  destruct (orderly_steps evs _ (orderly_boot file now)) as (_ & _ & H).
  destruct (fields_never_change file now evs) as (_ & _ & Hd).
  cbv zeta in *.
  destruct H as [(due & H & _) | [_ H]]; [left; exists due; exact H | right].
  rewrite Hd in H. unfold constructor in H. cbn [restartEveryDayDate] in H.
  destruct (restartEveryDayTime (mergeConfig file)) as [time|]; [ | exact H].
  destruct (ModemUtil.isEmpty time); exact H.
Qed.

Lemma quiet_tasks (now : Z) (this : App) :
  (forall t0, deviceCalls (effects_of (checking_callback t0 this)) = O)
  /\ (forall r, deviceCalls (effects_of (restart_settled r this)) = O)
  /\ deviceCalls (effects_of (start_callback tza now this)) = O
  /\ (forall delay, gt delay (expectedDelay (config this)) = false ->
                    deviceCalls (effects_of (checking_resume delay this)) = O).
Proof.
  destruct this as [cfg mu d c h flag].
  split; [intros t0 | split; [intros r | split; [ | intros delay Hgt ] ] ];
    run_task_tac.
  - destruct flag; reflexivity.
  - destruct r, h; reflexivity.
  - destruct h, d; reflexivity.
  - simpl in Hgt. rewrite Hgt. simpl.
    destruct flag; simpl; destruct (0 <? c); reflexivity.
Qed.

(** X10. An event adds at most one call of the device, and when it adds one
    the flag goes from false to true and the event is a probe that settled
    with a bad sample or the daily timer. A tick, the start timer and a
    device call that settles (failed or not) never call the device: a
    failed restart is not retried. *)
Theorem device_called_on_trigger_only (w : World) (ev : Event) :
  deviceCalls (output (step tza w ev)) = deviceCalls (output w)
  \/ (deviceCalls (output (step tza w ev)) = S (deviceCalls (output w))
      /\ isRestarting (app w) = false
      /\ isRestarting (app (step tza w ev)) = true
      /\ ((exists i ok startTime,
             what ev = ProbeSettles i ok
             /\ nth_error (probes w) i = Some startTime
             /\ gt (checkingDelay startTime
                                  (if ok then Some (at_ ev) else None))
                   (expectedDelay (config (app w))) = true)
          \/ (exists i due,
                what ev = TimeoutFires i
                /\ nth_error (timeouts w) i = Some (DailyCallback, due)
                /\ due <= at_ ev))).
Proof.
  unfold step.
  destruct (task_of tza w ev) as [[w1 t]|] eqn:E; [ | left; reflexivity ].
  destruct (@task_of_cases tza w ev w1 t E) as (Ht & Happ & Hout & _).
  pose proof (task_of_starts w ev w1 t E) as Hst.
  destruct (@run_task_spec (at_ ev) t w1) as (Ha' & Ho' & _ & _).
  destruct (program_task_polling (at_ ev) t (app w) Ht) as (_ & _ & Hcalls & _).
  destruct (quiet_tasks (at_ ev) (app w)) as (Qcb & Qset & Qstart & Qgood).
  rewrite Ho', Ha', Hout, Happ, deviceCalls_app.
  destruct Hcalls as [H0 | (H1 & Hf & Ht')]; [left; lia | ].
  destruct Hst as [Hw Hon | i ok st Hw Hnth | r n Hw Hres | i cb due Hw Hnth Hdue].
  - rewrite Qcb in H1. discriminate.
  - right. split; [lia | split; [exact Hf | split; [exact Ht' | left ] ] ].
    exists i, ok, st. split; [exact Hw | split; [exact Hnth | ] ].
    destruct (gt (checkingDelay st (if ok then Some (at_ ev) else None))
                 (expectedDelay (config (app w)))) eqn:G; [reflexivity | ].
    rewrite (Qgood _ G) in H1. discriminate.
  - rewrite Qset in H1. discriminate.
  - destruct cb.
    + right. split; [lia | split; [exact Hf | split; [exact Ht' | right ] ] ].
      exists i, due. auto.
    + rewrite Qstart in H1. discriminate.
Qed.

(** X11. With a positive [startDelay] the program only arms the start timer:
    no polling, no probe, nothing logged, and no event before the timer is
    due changes anything. *)
Theorem start_is_deferred (file : Partial_IAppConfig) (now d : Z) :
  startDelay (mergeConfig file) = Some d ->
  0 < d ->
  boot tza file now
  = mkWorld (constructor tza file now) false [] O
            [(StartCallback, now + timerDelay (Some d))]
            [setTimeout StartCallback (Some d)]
  /\ (forall ev, at_ ev < now + timerDelay (Some d) ->
                 step tza (boot tza file now) ev = boot tza file now).
Proof.
  intros Hd Hpos.
  assert (Hboot : boot tza file now
                  = mkWorld (constructor tza file now) false [] O
                            [(StartCallback, now + timerDelay (Some d))]
                            [setTimeout StartCallback (Some d)]).
  { unfold boot, run_task. simpl app.
    destruct (run_cases now (constructor tza file now))
      as [(d' & Hd' & _ & Hrun) | ([Hnone | (d' & Hd' & Hle)] & _)].
    - simpl config in Hd'. rewrite Hd in Hd'. inversion Hd'; subst d'.
      rewrite Hrun. reflexivity.
    - simpl config in Hnone. congruence.
    - simpl config in Hd'. rewrite Hd in Hd'. inversion Hd'; subst d'. lia. }
  split; [exact Hboot | ].
  intros ev Hev. rewrite Hboot.
  remember (now + timerDelay (Some d)) as due eqn:Hdue. clear Hdue Hboot.
  unfold step, task_of. simpl.
  destruct (what ev) as [ | i ok | r | i ]; try reflexivity.
  - destruct i; reflexivity.
  - destruct i as [|i]; simpl; [ | destruct i; reflexivity ].
    destruct (due <=? at_ ev) eqn:F; [ | reflexivity ].
    apply Z.leb_le in F. lia.
Qed.

(** X6. A configured daily time that does not parse leaves an invalid date;
    each time the schedule is then registered the computed delay is not a
    number and the timer is armed for 1 ms later. *)
Theorem invalid_date_rearms_after_1ms (now : Z) (this : App) (d : Date) :
  restartEveryDayDate this = Some d ->
  getTime d = None ->
  armed now (effects_of (start_callback tza now this))
  = [(DailyCallback, now + 1)]
  /\ armed now (effects_of (daily_callback tza now this))
     = [(DailyCallback, now + 1)].
Proof.
  intros Hd Hinv.
  destruct (timer_tasks_arm_daily now this) as (Adaily & Astart & _).
  rewrite Hd in Adaily, Astart. rewrite Adaily, Astart.
  destruct d as [tv]. simpl in Hinv. subst tv.
  split; reflexivity.
Qed.

End Lifetime.

(** X16. Starting twice is starting once, stopping twice is stopping once:
    the second call changes nothing and emits nothing. Starting leaves the
    counter alone; stopping resets it, but only when polling was active. *)
Theorem start_and_stop_are_idempotent (this : App.App) :
  App.startChecking (App.state_of (App.startChecking this))
  = (tt, App.state_of (App.startChecking this), [])
  /\ App.stopChecking (App.state_of (App.stopChecking this))
     = (tt, App.state_of (App.stopChecking this), [])
  /\ App.checkingIntervalHandler (App.state_of (App.startChecking this))
     = Some App.TimeoutObject
  /\ App.checkingIntervalHandler (App.state_of (App.stopChecking this)) = None
  /\ App.currentBadCount (App.state_of (App.startChecking this))
     = App.currentBadCount this
  /\ App.currentBadCount (App.state_of (App.stopChecking this))
     = (if App.isSome (App.checkingIntervalHandler this)
        then 0 else App.currentBadCount this).
Proof.
  destruct this as [cfg mu d c h flag].
  unfold App.startChecking, App.stopChecking, App.checking, App.bind, App.get,
    App.modify, App.emit, App.ret, App.state_of,
    App.set_currentBadCount, App.set_checkingIntervalHandler.
  simpl. destruct h as [[]|]; simpl; repeat split.
Qed.

(** X6 on the program configured with the daily time [3], which has no
    minute part. *)
Lemma invalid_date_rearms_after_1ms_witness :
  App.restartEveryDayDate (App.constructor Date.utc (Scenario.fileDailyTime "3") 0)
  = Some (Date.mkDate None)
  /\ App.armed 5000
       (App.effects_of
          (App.daily_callback Date.utc 5000
             (App.constructor Date.utc (Scenario.fileDailyTime "3") 0)))
     = [(App.DailyCallback, 5001)].
Proof.
  split; [reflexivity | ].
  exact (proj2 (invalid_date_rearms_after_1ms Date.utc 5000
                  (App.constructor Date.utc (Scenario.fileDailyTime "3") 0)
                  (Date.mkDate None) eq_refl eq_refl)).
Defined.

(** X11 on the program configured with a startup delay of 30 s: a tick one
    second after the start finds nothing to do. *)
Lemma start_is_deferred_witness :
  App.startDelay (App.mergeConfig (Scenario.fileStartDelay 30000)) = Some 30000
  /\ 0 < 30000
  /\ App.step Date.utc (App.boot Date.utc (Scenario.fileStartDelay 30000) 0)
               (Scenario.tick 1000)
     = App.boot Date.utc (Scenario.fileStartDelay 30000) 0.
Proof.
  split; [reflexivity | split; [lia | ] ].
  apply (proj2 (start_is_deferred Date.utc (Scenario.fileStartDelay 30000) 0 30000
                  eq_refl eq_refl)).
  reflexivity.
Defined.

(** X13 on the default program after the five bad samples. *)
Lemma badScore_stays_under_ceiling_witness :
  0 <= App.goodReduce (App.mergeConfig Scenario.emptyFile)
  /\ (App.currentBadCount (App.app Scenario.triggeredWorld) < 10
      \/ App.currentBadCount (App.app Scenario.triggeredWorld) <= 0).
Proof.
  split; [discriminate | ].
  apply (@badScore_stays_under_ceiling Date.utc Scenario.emptyFile 0
           Scenario.fiveBadSamples).
  discriminate.
Defined.

(** X14 on the default program ([goodReduce] 1 divides [badIncrease] 2)
    after two bad samples and a good one. *)
Lemma badScore_nonnegative_when_divisible_witness :
  0 <= App.badIncrease (App.mergeConfig Scenario.emptyFile)
  /\ 0 <= App.goodReduce (App.mergeConfig Scenario.emptyFile)
  /\ (App.goodReduce (App.mergeConfig Scenario.emptyFile)
      | App.badIncrease (App.mergeConfig Scenario.emptyFile))
  /\ 0 <= App.currentBadCount Scenario.counterAtThree.
Proof.
  assert (Hdiv : (App.goodReduce (App.mergeConfig Scenario.emptyFile)
                  | App.badIncrease (App.mergeConfig Scenario.emptyFile)))
    by (exists 2; reflexivity).
  split; [discriminate | split; [discriminate | split; [exact Hdiv | ] ] ].
  apply (@badScore_nonnegative_when_divisible Date.utc Scenario.emptyFile 0
           [Scenario.tick 2000; Scenario.settles 4000 0 true;
            Scenario.tick 4000; Scenario.settles 6000 0 true;
            Scenario.tick 6000; Scenario.settles 6100 0 true]);
    [discriminate | discriminate | exact Hdiv].
Defined.

(** X15 on the program with [goodReduce] 3 after one bad and one good
    sample: the counter is -1, not below -2. *)
Lemma badScore_lower_bound_witness :
  0 <= App.badIncrease (App.mergeConfig (Scenario.fileGoodReduce 3))
  /\ 0 <= App.goodReduce (App.mergeConfig (Scenario.fileGoodReduce 3))
  /\ -2 <= App.currentBadCount
             (App.app (App.steps Date.utc (App.boot Date.utc (Scenario.fileGoodReduce 3) 0)
                                 Scenario.badThenGood)).
Proof.
  split; [discriminate | split; [discriminate | ] ].
  apply (@badScore_lower_bound Date.utc (Scenario.fileGoodReduce 3) 0
           Scenario.badThenGood); discriminate.
Defined.
